(** * JavaParser version checker: a shallow embedding of [script.py]

    The script lists the artifacts published under the namespace
    [com.github.javaparser] on mvnrepository.com, resolves the latest release
    of each one, groups the artifacts by version and writes four reports.

    Conventions of the embedding.
    - A Python [str] is a [string]; a character is its code point, and the
      development covers the code points 0..255.  On that range the regular
      expression class [\d] is exactly ['0'..'9'] and the white space removed
      by [str.strip()] is exactly the set given by [Py.isspace].
    - A Python [dict] is an association list in insertion order with unique
      keys; a Python [list] is a [list].
    - [requests], [bs4] and [datetime] are libraries, not code of the script:
      the remote site, the HTML parser and the clock are variables of the
      section that holds the program; the parsed document is a tree on which
      [find_all], [find], [find_parent] and [.text] are defined below.
    - Exceptions are the instances of Python's [Exception]; the interruption
      of the process from outside ([KeyboardInterrupt], [SystemExit]) is not
      part of the model.
    - The console and the file system accept what the script hands them:
      [print] and the writes to the four report files succeed.  A console
      that cannot encode the pictographs of the messages, or a directory
      that cannot be written, makes the script stop where it stands; what is
      proved below about prints and files is proved for a run in which
      neither happens. *)

From Stdlib Require Import List String Ascii Arith Lia Bool.
From Stdlib Require Import Permutation Sorted DecimalString OrdersEx.
From Stdlib Require Import RelationClasses.
Import ListNotations.
Open Scope string_scope.
Set Warnings "-register-all".

(** Line feed and the double quote, as one-character strings. *)
Definition LF : string := String (ascii_of_nat 10) EmptyString.
Definition QUOTE : string := String (ascii_of_nat 34) EmptyString.

(* ================================================================== *)
(** ** Python built-ins used by the script *)

Module Py.

(** [str(n)] for a non-negative [int]. *)
Definition str_of_int (n : nat) : string :=
  NilEmpty.string_of_uint (Nat.to_uint n).

Definition code (c : ascii) : nat := nat_of_ascii c.

(** [\d] on code points 0..255. *)
Definition isdigit (c : ascii) : bool :=
  ((48 <=? code c) && (code c <=? 57))%nat.

(** The characters [str.strip()] removes, on code points 0..255:
    TAB LF VT FF CR, FS GS RS US, SPACE, NEL (0x85) and NBSP (0xA0). *)
Definition isspace (c : ascii) : bool :=
  let n := code c in
  (((9 <=? n) && (n <=? 13)) || ((28 <=? n) && (n <=? 32))
   || (n =? 133) || (n =? 160))%nat.

Fixpoint lstrip (s : string) : string :=
  match s with
  | String c s' => if isspace c then lstrip s' else s
  | EmptyString => EmptyString
  end.

Fixpoint rstrip (s : string) : string :=
  match s with
  | EmptyString => EmptyString
  | String c s' =>
      match rstrip s' with
      | EmptyString => if isspace c then EmptyString else String c EmptyString
      | r => String c r
      end
  end.

(** [s.strip()] *)
Definition strip (s : string) : string := rstrip (lstrip s).

(** Truth value of a [str]: non-empty. *)
Definition truthy (s : string) : bool :=
  match s with EmptyString => false | _ => true end.

(** [s.startswith(p)] *)
Definition startswith (s p : string) : bool := String.prefix p s.

(** [needle in hay] for strings. *)
Fixpoint contains (needle hay : string) : bool :=
  String.prefix needle hay ||
  match hay with
  | EmptyString => false
  | String _ hay' => contains needle hay'
  end.

(** [s.split(sep)[-1]] for a one-character separator: what follows the last
    occurrence of [sep], the whole string when there is none. *)
Fixpoint split_last (sep : ascii) (s : string) : string :=
  match s with
  | EmptyString => EmptyString
  | String c s' =>
      if existsb (Ascii.eqb sep) (list_ascii_of_string s')
      then split_last sep s'
      else if Ascii.eqb c sep then s' else s
  end.

(** [s.split(sep)] for a one-character separator: the pieces between the
    occurrences of [sep]; one piece, the whole string, when there is none. *)
Fixpoint split (sep : ascii) (s : string) : list string :=
  match s with
  | EmptyString => [EmptyString]
  | String c s' =>
      if Ascii.eqb c sep then EmptyString :: split sep s'
      else match split sep s' with
           | piece :: pieces => String c piece :: pieces
           | [] => [String c EmptyString]
           end
  end.

(** *** Sorting

    [sorted] is stable; on keys that are pairwise distinct its result is the
    one ascending arrangement, which is all the script relies on.  It is
    modelled by a stable insertion sort. *)
Section Sorting.
Context {A : Type} (le : A -> A -> bool).

Fixpoint insert (x : A) (l : list A) : list A :=
  match l with
  | [] => [x]
  | y :: l' => if le x y then x :: l else y :: insert x l'
  end.

Fixpoint sorted (l : list A) : list A :=
  match l with
  | [] => []
  | x :: l' => insert x (sorted l')
  end.
End Sorting.

(** Order of [str] and of [(str, str)] tuples; [reverse=True] flips it. *)
Definition str_le (a b : string) : bool := String.leb a b.
Definition str_ge (a b : string) : bool := String.leb b a.
Definition str_lt (a b : string) : Prop := String.compare a b = Lt.
Definition pair_le (p q : string * string) : bool :=
  match String.compare (fst p) (fst q) with
  | Lt => true
  | Eq => String.leb (snd p) (snd q)
  | Gt => false
  end.

(** [list(set(l))]: the distinct elements, in an order the script does not
  depend on since it sorts the result at once. *)
Definition set (l : list string) : list string := nodup string_dec l.

(** *** dict: insertion-ordered, keys unique *)
Section Dict.
Context {V : Type}.
Definition dict := list (string * V).

Fixpoint get (d : dict) (k : string) : option V :=
  match d with
  | [] => None
  | (k', v) :: d' => if String.eqb k' k then Some v else get d' k
  end.

(** [d[k] = v]: replaces in place, appends a new key at the end. *)
Fixpoint setitem (d : dict) (k : string) (v : V) : dict :=
  match d with
  | [] => [(k, v)]
  | (k', v') :: d' =>
      if String.eqb k' k then (k', v) :: d' else (k', v') :: setitem d' k v
  end.

(** [k in d] *)
Definition mem (d : dict) (k : string) : bool :=
  match get d k with Some _ => true | None => false end.

Definition keys (d : dict) : list string := map fst d.
Definition items (d : dict) : list (string * V) := d.
End Dict.
Arguments dict : clear implicits.

End Py.

(* ================================================================== *)
(** ** The two regular expressions of the script *)

Module Re.

Fixpoint skip_digits (s : string) : string :=
  match s with
  | String c s' => if Py.isdigit c then skip_digits s' else s
  | EmptyString => EmptyString
  end.

(** [\d+] at the head of [s]: what is left after the longest run of digits,
    [None] when [s] does not start with a digit.  A shorter run would leave a
    digit where the pattern wants a dot, so the longest run decides. *)
Definition digits (s : string) : option string :=
  match s with
  | String c s' => if Py.isdigit c then Some (skip_digits s') else None
  | EmptyString => None
  end.

(** [\.] at the head of [s]. *)
Definition dot (s : string) : option string :=
  match s with
  | String c s' => if Ascii.eqb c "." then Some s' else None
  | EmptyString => None
  end.

Definition and_then {A B} (o : option A) (f : A -> option B) : option B :=
  match o with Some a => f a | None => None end.

(** [re.match(r'^\d+\.\d+\.\d+', s)] as a truth value. *)
Definition match_version (s : string) : bool :=
  match and_then (and_then (and_then (and_then (digits s) dot) digits) dot)
                 digits with
  | Some _ => true
  | None => false
  end.

Definition artifact_path : string := "/artifact/com.github.javaparser/".

Fixpoint drop_prefix (p s : string) : option string :=
  match p, s with
  | EmptyString, _ => Some s
  | String a p', String b s' => if Ascii.eqb a b then drop_prefix p' s' else None
  | String _ _, EmptyString => None
  end.

Definition no_slash (s : string) : bool :=
  negb (existsb (Ascii.eqb "/") (list_ascii_of_string s)).

(** [re.compile(r'/artifact/com\.github\.javaparser/[^/]+$').search(s)] as a
    truth value: somewhere in [s] the path occurs and what follows it, up to
    the end, is one or more characters other than a slash.  (The [$] also
    matches before a final line feed; a line feed is not a slash, so that
    case is already one of these.) *)
Fixpoint search_artifact_link (s : string) : bool :=
  match drop_prefix artifact_path s with
  | Some rest => Py.truthy rest && no_slash rest
  | None => false
  end
  || match s with
     | String _ s' => search_artifact_link s'
     | EmptyString => false
     end.

End Re.

(* ================================================================== *)
(** ** The parsed document (bs4) *)

Module Bs4.

(** A node of the tree [BeautifulSoup(text, 'html.parser')] builds.  Of a
    tag the script reads its name, its [class] attribute, which the parser
    stores as the list of its tokens ([classes], empty when the attribute is
    absent), its string-valued attributes ([attrs]) and its contents. *)
Inductive node : Type :=
| NavigableString (s : string)
| Tag (name : string) (classes : list string)
      (attrs : list (string * string)) (contents : list node).

(** A tag as the script holds it: the node and its chain of parents, the
    nearest first. *)
Record element : Type := { node_of : node; parents : list node }.

Definition name (n : node) : option string :=
  match n with Tag nm _ _ _ => Some nm | NavigableString _ => None end.

Definition has_name (nm : string) (n : node) : bool :=
  match n with Tag nm' _ _ _ => String.eqb nm' nm | NavigableString _ => false end.

(** [tag.get('class', [])] *)
Definition get_class (n : node) : list string :=
  match n with Tag _ cs _ _ => cs | NavigableString _ => [] end.

(** ['release' in tag.get('class', [])] and the [class_=] filter. *)
Definition has_class (c : string) (n : node) : bool :=
  existsb (String.eqb c) (get_class n).

(** [tag.attrs] and [tag[key]]. *)
Definition attrs_of (n : node) : list (string * string) :=
  match n with Tag _ _ a _ => a | NavigableString _ => [] end.

Definition getitem (n : node) (key : string) : option string :=
  Py.get (attrs_of n) key.

(** [tag.text]: the strings below the tag, in document order. *)
Fixpoint text (n : node) : string :=
  match n with
  | NavigableString s => s
  | Tag _ _ _ cs => String.concat "" (map text cs)
  end.

(** The nodes below [n] in document order, each with its parents. *)
Fixpoint descendants (ps : list node) (n : node) : list element :=
  match n with
  | NavigableString _ => []
  | Tag _ _ _ cs =>
      flat_map (fun c => {| node_of := c; parents := n :: ps |}
                           :: descendants (n :: ps) c) cs
  end.

(** [soup.find_all(name, class_=c)] *)
Definition find_all_class (nm c : string) (soup : node) : list element :=
  filter (fun e => has_name nm (node_of e) && has_class c (node_of e))
         (descendants [] soup).

(** [soup.find_all(name, href=pattern)]: the attribute is there and the
    pattern is found in it. *)
Definition find_all_href (nm : string) (pattern : string -> bool)
    (soup : node) : list element :=
  filter (fun e => has_name nm (node_of e) &&
                   match getitem (node_of e) "href" with
                   | Some h => pattern h
                   | None => false
                   end)
         (descendants [] soup).

(** [soup.find(name, class_=c)] *)
Definition find_class (nm c : string) (soup : node) : option element :=
  hd_error (find_all_class nm c soup).

(** [tag.find_parent(name)] *)
Definition find_parent (nm : string) (e : element) : option node :=
  List.find (has_name nm) (parents e).

End Bs4.

(* ================================================================== *)
(** ** datetime *)

Module Datetime.

Record datetime : Type := {
  year : nat; month : nat; day : nat;
  hour : nat; minute : nat; second : nat; microsecond : nat
}.

Fixpoint zeros (n : nat) : string :=
  match n with O => EmptyString | S n' => String "0" (zeros n') end.

(** [%0wd] *)
Definition pad (w n : nat) : string :=
  let s := Py.str_of_int n in zeros (w - String.length s) ++ s.

Definition hms (d : datetime) : string :=
  pad 2 (hour d) ++ ":" ++ pad 2 (minute d) ++ ":" ++ pad 2 (second d).

Definition ymd (d : datetime) : string :=
  pad 4 (year d) ++ "-" ++ pad 2 (month d) ++ "-" ++ pad 2 (day d).

(** [d.strftime('%Y-%m-%d %H:%M:%S')] *)
Definition strftime_human (d : datetime) : string := ymd d ++ " " ++ hms d.

(** [d.strftime('%Y%m%d-%H%M%S')] *)
Definition strftime_compact (d : datetime) : string :=
  pad 4 (year d) ++ pad 2 (month d) ++ pad 2 (day d) ++ "-" ++
  pad 2 (hour d) ++ pad 2 (minute d) ++ pad 2 (second d).

Definition fraction (d : datetime) : string :=
  match microsecond d with
  | O => EmptyString
  | us => "." ++ pad 6 us
  end.

(** [d.isoformat()] and [str(d)]: the microseconds appear unless zero. *)
Definition isoformat (d : datetime) : string := ymd d ++ "T" ++ hms d ++ fraction d.
Definition str (d : datetime) : string := ymd d ++ " " ++ hms d ++ fraction d.

(** Two readings of the clock that fall in the same second. *)
Definition same_second (a b : datetime) : Prop :=
  year a = year b /\ month a = month b /\ day a = day b /\
  hour a = hour b /\ minute a = minute b /\ second a = second b.

End Datetime.

(* ================================================================== *)
(** ** json.dump(obj, f, indent=2) *)

Module Json.

Inductive value : Type :=
| Str (s : string)
| Int (n : nat)
| List (l : list value)
| Dict (l : list (string * value)).

Definition hex_digit (n : nat) : ascii :=
  ascii_of_nat (if n <? 10 then 48 + n else 87 + n)%nat.

(** One character of a string under [ensure_ascii]: the quote, the backslash
    and everything outside [' '..'~'] are escaped. *)
Definition escape (c : ascii) : string :=
  let n := Py.code c in
  if (n =? 34)%nat then "\" ++ QUOTE
  else if (n =? 92)%nat then "\\"
  else if (n =? 8)%nat then "\b"
  else if (n =? 12)%nat then "\f"
  else if (n =? 10)%nat then "\n"
  else if (n =? 13)%nat then "\r"
  else if (n =? 9)%nat then "\t"
  else if ((n <? 32) || (126 <? n))%nat
       then "\u00" ++ String (hex_digit (n / 16)) (String (hex_digit (n mod 16)) "")
  else String c "".

Definition encode_str (s : string) : string :=
  QUOTE ++ String.concat "" (map escape (list_ascii_of_string s)) ++ QUOTE.

Fixpoint spaces (n : nat) : string :=
  match n with O => EmptyString | S n' => String " " (spaces n') end.

(** The line break and the indentation of nesting depth [level]. *)
Definition newline_indent (level : nat) : string := LF ++ spaces (2 * level).

Fixpoint dumps_at (level : nat) (v : value) : string :=
  match v with
  | Str s => encode_str s
  | Int n => Py.str_of_int n
  | List [] => "[]"
  | List l =>
      "[" ++ newline_indent (S level)
      ++ String.concat ("," ++ newline_indent (S level))
                       (map (dumps_at (S level)) l)
      ++ newline_indent level ++ "]"
  | Dict [] => "{}"
  | Dict l =>
      "{" ++ newline_indent (S level)
      ++ String.concat ("," ++ newline_indent (S level))
           (map (fun kv => encode_str (fst kv) ++ ": " ++ dumps_at (S level) (snd kv)) l)
      ++ newline_indent level ++ "}"
  end.

Definition dumps (v : value) : string := dumps_at 0 v.

(** [obj[key]] on a JSON object. *)
Definition member (key : string) (v : value) : option value :=
  match v with Dict l => Py.get l key | _ => None end.

End Json.

(* ================================================================== *)
(** ** Effects: exceptions, the console, the network, the clock, files *)

(** The exceptions the libraries raise inside the two [try] blocks. *)
Inductive exn : Type :=
| RequestException (reason : string)   (* requests.get: no connection, timeout, ... *)
| HTTPError (status : nat)             (* response.raise_for_status() *)
| ParserError (reason : string).       (* BeautifulSoup(...) rejecting the markup *)

Inductive outcome (A : Type) : Type :=
| Returned (a : A)
| Raised (e : exn).
Arguments Returned {A} a.
Arguments Raised {A} e.

(** What [requests.get] hands back. *)
Record Response : Type := { status_code : nat; body : string }.

(** Every [print] of the script, by source line.  The texts carry pictographs
    and are meant for the eye; the arguments are the values they interpolate. *)
Inductive console : Type :=
| Fetching                                   (* 16 *)
| ErrorFetching (e : exn)                    (* 53 *)
| Banner                                     (* 95 *)
| Rule                                       (* 96, 129, 154: '=' * 50 *)
| Blank                                      (* 97, 107, 149 *)
| NoArtifacts                                (* 103 *)
| Found (n : nat)                            (* 106 *)
| Checking (i n : nat) (artifact : string)   (* 114, no line end *)
| Resolved (version : string)                (* 119 *)
| NoStable                                   (* 121 *)
| BlankRule                                  (* 127, 152: '\n' + '=' * 50 *)
| SummaryTitle                               (* 128 *)
| NoVersions                                 (* 132 *)
| FoundVersions (n : nat)                    (* 142 *)
| VersionLine (version : string) (n : nat)   (* 146 *)
| Member (artifact : string)                 (* 148 *)
| XmlTitle                                   (* 153 *)
| Text (s : string)                          (* 172: the manifest itself *)
| JsonSaved (file : string)                  (* 186 *)
| XmlSaved (file : string)                   (* 192 *)
| CsvSaved (file : string)                   (* 200 *)
| SummarySaved (file : string)               (* 215 *)
| Complete (checked resolved : nat).         (* 217 *)

(** What a run does to the world, in order. *)
Inductive event : Type :=
| Printed (c : console)
| Fetched (url : string)                    (* requests.get(url, headers=...) *)
| Slept                                     (* time.sleep(0.3) *)
| Wrote (file content : string).            (* open(file, 'w'), writes, close *)

Record state : Type := {
  clock_reads : nat;          (* how often datetime.now() was called *)
  trace : list event          (* the events so far, oldest first *)
}.

Definition M (A : Type) : Type := state -> outcome A * state.

Definition ret {A} (a : A) : M A := fun st => (Returned a, st).

Definition bind {A B} (m : M A) (f : A -> M B) : M B :=
  fun st =>
    match m st with
    | (Returned a, st') => f a st'
    | (Raised e, st') => (Raised e, st')
    end.

Definition raise {A} (e : exn) : M A := fun st => (Raised e, st).

(** [try: body / except Exception as e: handler e] *)
Definition try_except {A} (body : M A) (handler : exn -> M A) : M A :=
  fun st =>
    match body st with
    | (Returned a, st') => (Returned a, st')
    | (Raised e, st') => handler e st'
    end.

Declare Scope prog_scope.
Delimit Scope prog_scope with prog.
Notation "x <- m ;; k" := (bind m (fun x => k))
  (at level 61, m at next level, right associativity) : prog_scope.
Notation "m ;;; k" := (bind m (fun _ => k))
  (at level 61, right associativity) : prog_scope.

Definition emit (e : event) : M unit :=
  fun st => (Returned tt,
             {| clock_reads := clock_reads st; trace := trace st ++ [e] |}).

Definition print (c : console) : M unit := emit (Printed c).
Definition sleep : M unit := emit Slept.
Definition write_file (file content : string) : M unit := emit (Wrote file content).

(** [for x in l: acc = body x acc] *)
Fixpoint for_each {A S} (l : list A) (body : A -> S -> M S) (acc : S) : M S :=
  match l with
  | [] => ret acc
  | x :: l' => bind (body x acc) (for_each l' body)
  end.

Definition initial : state := {| clock_reads := 0; trace := [] |}.

(** The events of a run and the files among them. *)
Definition run {A} (m : M A) : list event := trace (snd (m initial)).

Definition files_of (t : list event) : list (string * string) :=
  flat_map (fun e => match e with Wrote f c => [(f, c)] | _ => [] end) t.

Definition prints_of (t : list event) : list console :=
  flat_map (fun e => match e with Printed c => [c] | _ => [] end) t.

Definition gets_of (t : list event) : list string :=
  flat_map (fun e => match e with Fetched u => [u] | _ => [] end) t.

(** The number of pauses among the events. *)
Definition sleeps_of (t : list event) : nat :=
  List.length (filter (fun e => match e with Slept => true | _ => false end) t).

(** The texts printed by line 172, in order. *)
Definition texts_of (t : list event) : list string :=
  flat_map (fun e => match e with Printed (Text x) => [x] | _ => [] end) t.

(** The versions announced by the lines of line 146, in order. *)
Definition version_lines_of (t : list event) : list string :=
  flat_map (fun e => match e with
                     | Printed (VersionLine v _) => [v]
                     | _ => []
                     end) t.

(** Started with the clock read [k] times, [m] returns [a], reads the clock
    [d] more times and adds the events [evs]. *)
Definition yields_at {A} (k : nat) (m : M A) (a : A) (d : nat)
    (evs : list event) : Prop :=
  forall st, clock_reads st = k ->
    m st = (Returned a, {| clock_reads := d + k; trace := trace st ++ evs |}).

(* ================================================================== *)
(** ** The script *)

(** The return statement of [get_latest_version] that produced a version:
    line 74 (a button tagged [release]), line 80 (the first button) or
    line 87 (the [vnum] link of the versions table). *)
Inductive strategy : Type := ReleaseButton | FirstButton | VersionNumber.

Section Script.
(** The remote site, the HTML parser and the clock. *)
Variable requests_get : string -> outcome Response.
Variable html_parser : string -> outcome Bs4.node.
Variable clock : nat -> Datetime.datetime.

Local Open Scope prog_scope.

Definition http_get (url : string) : M Response :=
  emit (Fetched url) ;;; (fun st => (requests_get url, st)).

Definition raise_for_status (r : Response) : M unit :=
  if ((400 <=? status_code r) && (status_code r <? 600))%nat
  then raise (HTTPError (status_code r))
  else ret tt.

Definition BeautifulSoup (markup : string) : M Bs4.node :=
  fun st => (html_parser markup, st).

Definition datetime_now : M Datetime.datetime :=
  fun st => (Returned (clock (clock_reads st)),
             {| clock_reads := S (clock_reads st); trace := trace st |}).

(** *** get_all_javaparser_artifacts (lines 12-54) *)

Definition namespace_url : string :=
  "https://mvnrepository.com/artifact/com.github.javaparser".

(** Lines 30-40: the links that enclose a [div] of class [im]. *)
Definition artifacts_from_divs (soup : Bs4.node) : list string :=
  fold_left
    (fun artifacts div =>
       match Bs4.find_parent "a" div with
       | Some link =>
           match Bs4.getitem link "href" with
           | Some href =>
               if Py.contains "/artifact/com.github.javaparser/" href then
                 let artifact_name := Py.split_last "/" href in
                 if Py.truthy artifact_name
                    && negb (Py.startswith artifact_name "?")
                 then (artifacts ++ [artifact_name])%list
                 else artifacts
               else artifacts
           | None => artifacts
           end
       | None => artifacts
       end)
    (Bs4.find_all_class "div" "im" soup) [].

(** Lines 44-48: every link whose target matches the pattern.  The filter
    of [find_all] has seen the [href], so [link['href']] finds it. *)
Definition artifacts_from_links (soup : Bs4.node) (artifacts : list string)
  : list string :=
  fold_left
    (fun artifacts link =>
       match Bs4.getitem (Bs4.node_of link) "href" with
       | Some href =>
           let artifact_name := Py.split_last "/" href in
           if Py.truthy artifact_name
              && negb (existsb (String.eqb artifact_name) artifacts)
           then (artifacts ++ [artifact_name])%list
           else artifacts
       | None => artifacts
       end)
    (Bs4.find_all_href "a" Re.search_artifact_link soup) artifacts.

(** Lines 26-48: the list [artifacts] as line 50 finds it. *)
Definition collect_artifacts (soup : Bs4.node) : list string :=
  let artifacts := artifacts_from_divs soup in
  match artifacts with
  | [] => artifacts_from_links soup artifacts
  | _ => artifacts
  end.

(** Lines 26-50. *)
Definition scrape_artifacts (soup : Bs4.node) : list string :=
  Py.sorted Py.str_le (Py.set (collect_artifacts soup)).

(** Lines 19-50: the body of the [try]. *)
Definition artifacts_body : M (list string) :=
  response <- http_get namespace_url ;;
  raise_for_status response ;;;
  soup <- BeautifulSoup (body response) ;;
  ret (scrape_artifacts soup).

Definition get_all_javaparser_artifacts : M (list string) :=
  print Fetching ;;;
  try_except artifacts_body (fun e => print (ErrorFetching e) ;;; ret []).

(** *** get_latest_version (lines 56-92) *)

(** [version = x.text.strip()] followed by the test
    [version and re.match(r'^\d+\.\d+\.\d+', version)]. *)
Definition version_of (n : Bs4.node) : option string :=
  let version := Py.strip (Bs4.text n) in
  if Py.truthy version && Re.match_version version
  then Some version else None.

(** Lines 70-74. *)
Fixpoint release_loop (version_links : list Bs4.element) : option string :=
  match version_links with
  | [] => None
  | link :: rest =>
      if Bs4.has_class "release" (Bs4.node_of link) then
        match version_of (Bs4.node_of link) with
        | Some version => Some version
        | None => release_loop rest
        end
      else release_loop rest
  end.

(** Lines 77-80. *)
Definition first_button (version_links : list Bs4.element) : option string :=
  match version_links with
  | link :: _ => version_of (Bs4.node_of link)
  | [] => None
  end.

(** Lines 83-87. *)
Definition version_number (soup : Bs4.node) : option string :=
  match Bs4.find_class "a" "vnum" soup with
  | Some version_elem => version_of (Bs4.node_of version_elem)
  | None => None
  end.

(** Lines 69-89, with the return statement that was taken. *)
Definition scrape_version (soup : Bs4.node) : option (strategy * string) :=
  let version_links := Bs4.find_all_class "a" "vbtn" soup in
  match release_loop version_links with
  | Some version => Some (ReleaseButton, version)
  | None =>
      match first_button version_links with
      | Some version => Some (FirstButton, version)
      | None =>
          match version_number soup with
          | Some version => Some (VersionNumber, version)
          | None => None
          end
      end
  end.

Definition artifact_url (artifact_id : string) : string :=
  "https://mvnrepository.com/artifact/com.github.javaparser/" ++ artifact_id.

(** Lines 61-89: the body of the [try]. *)
Definition latest_version_body (artifact_id : string) : M (option string) :=
  response <- http_get (artifact_url artifact_id) ;;
  raise_for_status response ;;;
  soup <- BeautifulSoup (body response) ;;
  ret (option_map snd (scrape_version soup)).

Definition get_latest_version (artifact_id : string) : M (option string) :=
  try_except (latest_version_body artifact_id) (fun _ => ret None).

(** *** main (lines 94-217) *)

Definition group_id : string := "com.github.javaparser".

(** [enumerate(l, 1)] *)
Definition enumerate1 {A} (l : list A) : list (nat * A) :=
  combine (seq 1 (List.length l)) l.

(** Lines 110-124: the loop that fills [versions]. *)
Definition check_artifacts (artifacts : list string) : M (Py.dict string) :=
  for_each (enumerate1 artifacts)
    (fun ia versions =>
       print (Checking (fst ia) (List.length artifacts) (snd ia)) ;;;
       version <- get_latest_version (snd ia) ;;
       versions' <-
         match version with
         | Some v =>
             if Py.truthy v
             then print (Resolved v) ;;; ret (Py.setitem versions (snd ia) v)
             else print NoStable ;;; ret versions
         | None => print NoStable ;;; ret versions
         end ;;
       sleep ;;;
       ret versions')
    [].

(** Lines 138-140: one round of the grouping loop. *)
Definition group_step (version_groups : Py.dict (list string))
  (av : string * string) : Py.dict (list string) :=
  let version_groups :=
  if negb (Py.mem version_groups (snd av))
  then Py.setitem version_groups (snd av) []
  else version_groups in
  match Py.get version_groups (snd av) with
  | Some members => Py.setitem version_groups (snd av) (members ++ [fst av])%list
  | None => version_groups
  end.

(** Lines 136-140. *)
Definition group_by_version (versions : Py.dict string)
  : Py.dict (list string) :=
  fold_left group_step (Py.items versions) [].

(** The number of artifacts recorded in all groups together. *)
Definition total_members (version_groups : Py.dict (list string)) : nat :=
  list_sum (map (fun vm => List.length (snd vm)) version_groups).

(** The invariant of the grouping loop: the pairs seen so far are exactly the
    memberships recorded so far. *)
Definition grouped (seen : list (string * string))
    (g : Py.dict (list string)) : Prop :=
  forall k v, In (k, v) seen <-> exists m, Py.get g v = Some m /\ In k m.

(** [version_groups[version]] for a key taken from the dict itself. *)
Definition members_of (version_groups : Py.dict (list string))
    (version : string) : list string :=
  match Py.get version_groups version with Some l => l | None => [] end.

(** Lines 144-149. *)
Definition print_groups (version_groups : Py.dict (list string)) : M unit :=
  for_each (Py.sorted Py.str_ge (Py.keys version_groups))
    (fun version _ =>
       let artifacts_with_version := members_of version_groups version in
       print (VersionLine version (List.length artifacts_with_version)) ;;;
       for_each (Py.sorted Py.str_le artifacts_with_version)
         (fun artifact _ => print (Member artifact)) tt ;;;
       print Blank)
    tt.

(** Lines 156-171. *)
Definition xml_head (now : Datetime.datetime) (n : nat) : string :=
  "<?xml version=" ++ QUOTE ++ "1.0" ++ QUOTE ++ " encoding=" ++ QUOTE
  ++ "UTF-8" ++ QUOTE ++ "?>" ++ LF
  ++ "<!-- JavaParser Complete Dependencies List -->" ++ LF
  ++ "<!-- Generated on " ++ Datetime.strftime_human now ++ " -->" ++ LF
  ++ "<!-- Found " ++ Py.str_of_int n ++ " artifacts with versions -->" ++ LF
  ++ LF
  ++ "<dependencies>".

Definition xml_dependency (artifact version : string) : string :=
  LF ++ "    <dependency>" ++ LF
  ++ "        <groupId>" ++ group_id ++ "</groupId>" ++ LF
  ++ "        <artifactId>" ++ artifact ++ "</artifactId>" ++ LF
  ++ "        <version>" ++ version ++ "</version>" ++ LF
  ++ "    </dependency>".

Definition xml_of (now : Datetime.datetime) (versions : Py.dict string)
  : string :=
  fold_left (fun xml_output av => xml_output ++ xml_dependency (fst av) (snd av))
            (Py.sorted Py.pair_le (Py.items versions))
            (xml_head now (List.length versions))
  ++ LF ++ "</dependencies>".

(** Lines 180-185: the object handed to [json.dump]. *)
Definition json_report (now : Datetime.datetime) (versions : Py.dict string)
    (version_groups : Py.dict (list string)) : Json.value :=
  Json.Dict
    [ ("generated", Json.Str (Datetime.isoformat now));
      ("artifacts_count", Json.Int (List.length versions));
      ("versions", Json.Dict (map (fun av => (fst av, Json.Str (snd av))) versions));
      ("version_groups",
       Json.Dict (map (fun vm => (fst vm, Json.List (map Json.Str (snd vm))))
                      version_groups)) ].

(** Line 199: one row. *)
Definition csv_row (av : string * string) : string :=
  fst av ++ "," ++ snd av ++ LF.

(** Lines 198-199: the rows written after the header. *)
Definition csv_rows (versions : Py.dict string) : list string :=
  map csv_row (Py.sorted Py.pair_le (Py.items versions)).

Definition csv_header : string := "artifact,version" ++ LF.

Definition csv_of (versions : Py.dict string) : string :=
  csv_header ++ String.concat "" (csv_rows versions).

(** Lines 205-213. *)
Definition summary_of (now : Datetime.datetime) (versions : Py.dict string)
    (version_groups : Py.dict (list string)) : string :=
  "JavaParser Artifacts Summary" ++ LF
  ++ "Generated: " ++ Datetime.str now ++ LF
  ++ "Total artifacts: " ++ Py.str_of_int (List.length versions) ++ LF
  ++ "Unique versions: " ++ Py.str_of_int (List.length version_groups) ++ LF ++ LF
  ++ String.concat ""
       (map (fun version =>
               LF ++ "Version " ++ version ++ " ("
               ++ Py.str_of_int (List.length (members_of version_groups version))
               ++ " artifacts):" ++ LF
               ++ String.concat ""
                    (map (fun artifact => "  - " ++ artifact ++ LF)
                         (Py.sorted Py.str_le (members_of version_groups version))))
            (Py.sorted Py.str_ge (Py.keys version_groups))).

(** Lines 135-217: what happens once [versions] is known to be non-empty. *)
Definition report (artifacts : list string) (versions : Py.dict string)
  : M unit :=
  let version_groups := group_by_version versions in
  print (FoundVersions (List.length version_groups)) ;;;
  print_groups version_groups ;;;
  print BlankRule ;;; print XmlTitle ;;; print Rule ;;;
  now <- datetime_now ;;
  let xml_output := xml_of now versions in
  print (Text xml_output) ;;;
  now <- datetime_now ;;
  let timestamp := Datetime.strftime_compact now in
  let json_file := "javaparser-all-versions-" ++ timestamp ++ ".json" in
  now <- datetime_now ;;
  write_file json_file (Json.dumps (json_report now versions version_groups)) ;;;
  print (JsonSaved json_file) ;;;
  let xml_file := "javaparser-all-dependencies-" ++ timestamp ++ ".xml" in
  write_file xml_file xml_output ;;;
  print (XmlSaved xml_file) ;;;
  let csv_file := "javaparser-versions-" ++ timestamp ++ ".csv" in
  write_file csv_file (csv_of versions) ;;;
  print (CsvSaved csv_file) ;;;
  let summary_file := "javaparser-summary-" ++ timestamp ++ ".txt" in
  now <- datetime_now ;;
  write_file summary_file (summary_of now versions version_groups) ;;;
  print (SummarySaved summary_file) ;;;
  print (Complete (List.length artifacts) (List.length versions)).

Definition main : M unit :=
  print Banner ;;; print Rule ;;; print Blank ;;;
  artifacts <- get_all_javaparser_artifacts ;;
  match artifacts with
  | [] => print NoArtifacts
  | _ =>
      print (Found (List.length artifacts)) ;;; print Blank ;;;
      versions <- check_artifacts artifacts ;;
      print BlankRule ;;; print SummaryTitle ;;; print Rule ;;;
      match versions with
      | [] => print NoVersions
      | _ => report artifacts versions
      end
  end.

(** *** Words of the specification

    A version-selector link counts as a release with a version number when
    it is tagged [release] and its text, white space trimmed, matches the
    version pattern. *)
Definition release_match (e : Bs4.element) : bool :=
  Bs4.has_class "release" (Bs4.node_of e)
  && Re.match_version (Py.strip (Bs4.text (Bs4.node_of e))).

(** The first such link of the page. *)
Definition first_release_match (soup : Bs4.node) : option Bs4.element :=
  List.find release_match (Bs4.find_all_class "a" "vbtn" soup).

(** The target of a link of the index page to the page of [artifact]. *)
Definition artifact_href (artifact : string) : string :=
  "/artifact/com.github.javaparser/" ++ artifact.





(** Whether a text holds a line feed. *)
Definition has_line_feed (s : string) : bool :=
  existsb (Ascii.eqb (ascii_of_nat 10)) (list_ascii_of_string s).

(** Whether an artifact resolved to a version. *)
Definition is_some {A} (o : option A) : bool :=
  match o with Some _ => true | None => false end.

(** *** What a run computes

  The values the effectful code above returns, as plain functions of the
  remote site and the parser; the lemmas [artifacts_returns],
  [latest_version_returns], [check_artifacts_returns] and [main_files]
  below prove that the code returns exactly these. *)

(** The page behind [url] as lines 19-24 and 61-66 obtain it. *)
Definition fetch (url : string) : outcome Bs4.node :=
  match requests_get url with
  | Returned response =>
    if ((400 <=? status_code response) && (status_code response <? 600))%nat
    then Raised (HTTPError (status_code response))
    else html_parser (body response)
  | Raised e => Raised e
  end.

(** The value of [get_all_javaparser_artifacts()]. *)
Definition listed : list string :=
  match fetch namespace_url with
  | Returned soup => scrape_artifacts soup
  | Raised _ => []
  end.

(** The value of [get_latest_version(artifact_id)]. *)
Definition resolved (artifact_id : string) : option string :=
  match fetch (artifact_url artifact_id) with
  | Returned soup => option_map snd (scrape_version soup)
  | Raised _ => None
  end.

(** What one round of the loop of lines 113-124 does to [versions]. *)
Definition version_step (versions : Py.dict string) (artifact : string)
  : Py.dict string :=
  match resolved artifact with
  | Some v => if Py.truthy v then Py.setitem versions artifact v else versions
  | None => versions
  end.

(** [versions] after the loop of lines 113-124. *)
Definition version_map (artifacts : list string) : Py.dict string :=
  fold_left version_step artifacts [].

(** The four files of lines 175-213, for the clock readings [k], [k+1],
  [k+2] and [k+3]. *)
Definition reports (k : nat) (versions : Py.dict string)
  : list (string * string) :=
  let version_groups := group_by_version versions in
  let timestamp := Datetime.strftime_compact (clock (S k)) in
  [ ("javaparser-all-versions-" ++ timestamp ++ ".json",
   Json.dumps (json_report (clock (S (S k))) versions version_groups));
  ("javaparser-all-dependencies-" ++ timestamp ++ ".xml",
   xml_of (clock k) versions);
  ("javaparser-versions-" ++ timestamp ++ ".csv", csv_of versions);
  ("javaparser-summary-" ++ timestamp ++ ".txt",
   summary_of (clock (S (S (S k)))) versions version_groups) ].

(** The events of [get_all_javaparser_artifacts()]. *)
Definition listing_events : list event :=
  [Printed Fetching; Fetched namespace_url]
  ++ match fetch namespace_url with
   | Returned _ => []
   | Raised e => [Printed (ErrorFetching e)]
   end.

(** The events of one round of the loop of lines 113-124. *)
Definition check_events (n : nat) (ia : nat * string) : list event :=
  [ Printed (Checking (fst ia) n (snd ia));
  Fetched (artifact_url (snd ia));
  Printed (match resolved (snd ia) with
           | Some v => if Py.truthy v then Resolved v else NoStable
           | None => NoStable
           end);
  Slept ].

(** The events of [print_groups]. *)
Definition group_events (version_groups : Py.dict (list string)) : list event :=
  flat_map
  (fun version =>
     Printed (VersionLine version
                (List.length (members_of version_groups version)))
     :: flat_map (fun artifact => [Printed (Member artifact)])
          (Py.sorted Py.str_le (members_of version_groups version))
     ++ [Printed Blank])%list
  (Py.sorted Py.str_ge (Py.keys version_groups)).

(** The events of [report], the clock having been read [k] times before. *)
Definition report_events (k : nat) (artifacts : list string)
  (versions : Py.dict string) : list event :=
  let version_groups := group_by_version versions in
  let files := reports k versions in
  let file_at i := nth i files (EmptyString, EmptyString) in
  ([Printed (FoundVersions (List.length version_groups))]
   ++ group_events version_groups
   ++ [ Printed BlankRule; Printed XmlTitle; Printed Rule;
      Printed (Text (xml_of (clock k) versions));
      Wrote (fst (file_at 0)) (snd (file_at 0));
      Printed (JsonSaved (fst (file_at 0)));
      Wrote (fst (file_at 1)) (snd (file_at 1));
      Printed (XmlSaved (fst (file_at 1)));
      Wrote (fst (file_at 2)) (snd (file_at 2));
      Printed (CsvSaved (fst (file_at 2)));
      Wrote (fst (file_at 3)) (snd (file_at 3));
      Printed (SummarySaved (fst (file_at 3)));
      Printed (Complete (List.length artifacts) (List.length versions)) ])%list.

(** The events of [main]. *)
Definition main_events : list event :=
  ([Printed Banner; Printed Rule; Printed Blank] ++ listing_events
   ++ match listed with
    | [] => [Printed NoArtifacts]
    | _ =>
        [Printed (Found (List.length listed)); Printed Blank]
        ++ flat_map (check_events (List.length listed)) (enumerate1 listed)
        ++ [Printed BlankRule; Printed SummaryTitle; Printed Rule]
        ++ match version_map listed with
           | [] => [Printed NoVersions]
           | _ => report_events 0 listed (version_map listed)
           end
    end)%list.

End Script.

(* ================================================================== *)
(** ** Sample pages, sites and clocks *)

Module Sample.

Definition document (contents : list Bs4.node) : Bs4.node :=
  Bs4.Tag "[document]" [] [] [Bs4.Tag "html" [] [] [Bs4.Tag "body" [] [] contents]].

(** A node placed directly in the body of [document contents], as
    [find_all] returns it. *)
Definition in_body (contents : list Bs4.node) (n : Bs4.node) : Bs4.element :=
  {| Bs4.node_of := n;
     Bs4.parents := [ Bs4.Tag "body" [] [] contents;
                      Bs4.Tag "html" [] [] [Bs4.Tag "body" [] [] contents];
                      document contents ] |}.

(** [<a class="vbtn ..." href="#">text</a>] *)
Definition button (classes : list string) (text : string) : Bs4.node :=
  Bs4.Tag "a" ("vbtn" :: classes) [("href", "#")] [Bs4.NavigableString text].

(** [<a class="vnum" href="#">text</a>] *)
Definition vnum (text : string) : Bs4.node :=
  Bs4.Tag "a" ["vnum"] [("href", "#")] [Bs4.NavigableString text].

(** [<a href="..."><div class="im"></div></a>] *)
Definition tile (href : string) : Bs4.node :=
  Bs4.Tag "a" [] [("href", href)] [Bs4.Tag "div" ["im"] [] []].

(** [<a href="...">text</a>] *)
Definition plain_link (href text : string) : Bs4.node :=
  Bs4.Tag "a" [] [("href", href)] [Bs4.NavigableString text].

Definition path (artifact : string) : string :=
  "/artifact/com.github.javaparser/" ++ artifact.

(** Two buttons tagged [release]; the second reads 3.25.4. *)
Definition two_releases_body : list Bs4.node :=
  [button ["release"] "3.26.0"; button ["release"] "3.25.4"].
Definition two_releases : Bs4.node := document two_releases_body.

(** A beta button, then the release 3.25.4 with white space around it. *)
Definition one_release_body : list Bs4.node :=
  [button ["beta"] "3.26.0-beta.1"; button ["release"] (LF ++ "  3.25.4 " ++ LF)].
Definition one_release : Bs4.node := document one_release_body.

(** No button, one [vnum] link. *)
Definition snapshot_only : Bs4.node := document [vnum "1.0.0-SNAPSHOT-ish"].
Definition unversioned_only : Bs4.node := document [vnum "latest"].

(** A button tagged [release] whose text is no version, after a plain one. *)
Definition release_without_number_body : list Bs4.node :=
  [button [] "1.2.3"; button ["release"] "latest"].
Definition release_without_number : Bs4.node :=
  document release_without_number_body.

(** Five distinct artifacts and one of them twice. *)
Definition six_tiles : Bs4.node :=
  document [tile (path "javaparser-core"); tile (path "javaparser-parent");
            tile (path "javaparser-symbol-solver-core");
            tile (path "javaparser-core");
            tile (path "javaparser-core-serialization");
            tile (path "javaparser-core-generators")].

Definition six_links : Bs4.node :=
  document [plain_link (path "e") "e"; plain_link (path "b") "b";
            plain_link (path "a") "a"; plain_link (path "b") "b again";
            plain_link (path "d") "d"; plain_link (path "c") "c"].

Definition core_and_generator : Bs4.node :=
  document [tile (path "generator"); tile (path "core")].

(** A site that serves the given pages and answers 404 elsewhere; the body
    of a page is its address, which the parser maps to the page's tree. *)
Definition site_get (pages : list (string * Bs4.node)) (url : string)
  : outcome Response :=
  if Py.mem pages url
  then Returned {| status_code := 200; body := url |}
  else Returned {| status_code := 404; body := "" |}.

Definition site_parser (pages : list (string * Bs4.node)) (markup : string)
  : outcome Bs4.node :=
  match Py.get pages markup with
  | Some soup => Returned soup
  | None => Returned (document [])
  end.

(** A site that answers every request with the same page. *)
Definition same_get (url : string) : outcome Response :=
  Returned {| status_code := 200; body := "<html>" |}.

Definition same_parser (page : Bs4.node) (markup : string) : outcome Bs4.node :=
  Returned page.

(** The index lists [core] and [generator]; only [core] has a version. *)
Definition pages : list (string * Bs4.node) :=
  [ (namespace_url, core_and_generator);
    (artifact_url "core", one_release);
    (artifact_url "generator", unversioned_only) ].

(** A release button whose text runs over two lines. *)
Definition two_line_release : Bs4.node :=
  document [button ["release"] ("3.25.4" ++ LF ++ "  latest")].

Definition core_only : Bs4.node := document [tile (path "core")].

(** The index lists [core], whose release button runs over two lines. *)
Definition two_line_pages : list (string * Bs4.node) :=
  [ (namespace_url, core_only); (artifact_url "core", two_line_release) ].

(** 2025-03-07 09:05:01, the [i]-th reading [us + i] microseconds in. *)
Definition clock_at (us : nat) (i : nat) : Datetime.datetime :=
  {| Datetime.year := 2025; Datetime.month := 3; Datetime.day := 7;
     Datetime.hour := 9; Datetime.minute := 5; Datetime.second := 1;
     Datetime.microsecond := us + i |}.

End Sample.

(* ================================================================== *)
(** * Facts about the Python built-ins *)

Section SortingFacts.
Context {A : Type} (le : A -> A -> bool).
Hypothesis le_total : forall a b, le a b = true \/ le b a = true.
Hypothesis le_trans : forall a b c, le a b = true -> le b c = true -> le a c = true.

Lemma insert_perm (x : A) (l : list A) : Permutation (Py.insert le x l) (x :: l).
Proof.
  induction l as [|y l IH]; simpl.
  - apply Permutation_refl.
  - destruct (le x y).
    + apply Permutation_refl.
    + eapply perm_trans; [apply perm_skip, IH | apply perm_swap].
Qed.

Lemma sorted_perm (l : list A) : Permutation (Py.sorted le l) l.
Proof.
  induction l as [|x l IH]; simpl.
  - constructor.
  - eapply perm_trans; [apply insert_perm | apply perm_skip, IH].
Qed.

Lemma sorted_length (l : list A) : List.length (Py.sorted le l) = List.length l.
Proof. apply Permutation_length, sorted_perm. Qed.

Lemma sorted_In (l : list A) (x : A) : In x (Py.sorted le l) <-> In x l.
Proof.
  split; apply Permutation_in; [| apply Permutation_sym]; apply sorted_perm.
Qed.

Lemma insert_sorted (x : A) (l : list A) :
  StronglySorted (fun a b => le a b = true) l ->
  StronglySorted (fun a b => le a b = true) (Py.insert le x l).
Proof.
  induction 1 as [|y l Hs IH Hy]; simpl.
  - repeat constructor.
  - destruct (le x y) eqn:E.
    + constructor; [constructor; assumption |].
      constructor; [assumption |].
      rewrite Forall_forall in *. intros z Hz. eauto.
    + constructor; [assumption |].
      rewrite Forall_forall in *. intros z Hz.
      apply (Permutation_in _ (insert_perm x l)) in Hz.
      destruct Hz as [<- | Hz]; [| auto].
      destruct (le_total x y) as [H | H]; [congruence | assumption].
Qed.

Lemma sorted_sorted (l : list A) :
  StronglySorted (fun a b => le a b = true) (Py.sorted le l).
Proof.
  induction l; simpl; [constructor | apply insert_sorted; assumption].
Qed.
End SortingFacts.

Lemma compare_OT (a b : string) : String.compare a b = String_as_OT.compare a b.
Proof. reflexivity. Qed.

Lemma str_lt_trans (a b c : string) : Py.str_lt a b -> Py.str_lt b c -> Py.str_lt a c.
Proof.
  unfold Py.str_lt. rewrite !compare_OT.
  apply (@StrictOrder_Transitive _ _ String_as_OT.lt_strorder).
Qed.

Lemma str_lt_irrefl (a : string) : ~ Py.str_lt a a.
Proof.
  unfold Py.str_lt. rewrite compare_OT.
  apply (@StrictOrder_Irreflexive _ _ String_as_OT.lt_strorder).
Qed.

Lemma compare_refl (a : string) : String.compare a a = Eq.
Proof.
  pose proof (String.compare_antisym a a) as H.
  destruct (String.compare a a); simpl in H; congruence.
Qed.

Lemma str_le_iff (a b : string) : Py.str_le a b = true <-> Py.str_lt a b \/ a = b.
Proof.
  unfold Py.str_le, String.leb, Py.str_lt.
  destruct (String.compare a b) eqn:E; split; intros H; auto; try discriminate.
  - right; apply String.compare_eq_iff; assumption.
  - destruct H as [H | ->]; [discriminate | rewrite compare_refl in E; discriminate].
Qed.

Lemma str_le_total (a b : string) : Py.str_le a b = true \/ Py.str_le b a = true.
Proof. apply String.leb_total. Qed.

Lemma str_le_trans (a b c : string) :
  Py.str_le a b = true -> Py.str_le b c = true -> Py.str_le a c = true.
Proof.
  rewrite !str_le_iff. intros [H1 | ->] [H2 | ->]; auto.
  left; eapply str_lt_trans; eassumption.
Qed.

Lemma str_ge_total (a b : string) : Py.str_ge a b = true \/ Py.str_ge b a = true.
Proof. unfold Py.str_ge. apply String.leb_total. Qed.

Lemma str_ge_trans (a b c : string) :
  Py.str_ge a b = true -> Py.str_ge b c = true -> Py.str_ge a c = true.
Proof. unfold Py.str_ge. intros H1 H2. exact (str_le_trans _ _ _ H2 H1). Qed.

Lemma pair_le_fst (p q : string * string) :
  Py.pair_le p q = true -> Py.str_le (fst p) (fst q) = true.
Proof.
  unfold Py.pair_le, Py.str_le, String.leb.
  destruct (String.compare (fst p) (fst q)); auto; discriminate.
Qed.

Lemma pair_le_total (p q : string * string) :
  Py.pair_le p q = true \/ Py.pair_le q p = true.
Proof.
  unfold Py.pair_le. rewrite (String.compare_antisym (fst q) (fst p)).
  destruct (String.compare (fst p) (fst q)); simpl; auto.
  apply String.leb_total.
Qed.

Lemma pair_le_trans (p q r : string * string) :
  Py.pair_le p q = true -> Py.pair_le q r = true -> Py.pair_le p r = true.
Proof.
  unfold Py.pair_le.
  destruct (String.compare (fst p) (fst q)) eqn:E1; try discriminate;
    destruct (String.compare (fst q) (fst r)) eqn:E2; try discriminate;
    intros H1 H2.
  - apply String.compare_eq_iff in E1, E2. rewrite E1, E2, compare_refl.
    exact (str_le_trans _ _ _ H1 H2).
  - apply String.compare_eq_iff in E1. rewrite E1, E2. reflexivity.
  - apply String.compare_eq_iff in E2. rewrite <- E2, E1. reflexivity.
  - rewrite (str_lt_trans _ _ _ E1 E2). reflexivity.
Qed.

Lemma StronglySorted_weaken {A} (R S : A -> A -> Prop) (l : list A) :
  (forall a b, R a b -> S a b) -> StronglySorted R l -> StronglySorted S l.
Proof.
  intros HRS. induction 1 as [|a l Hs IH Ha]; constructor; auto.
  eapply Forall_impl; [| exact Ha]. auto.
Qed.

(** Ascending without repetition is strictly ascending. *)
Lemma sorted_strict (l : list string) :
  StronglySorted (fun a b => Py.str_le a b = true) l -> NoDup l ->
  StronglySorted Py.str_lt l.
Proof.
  induction 1 as [|a l Hs IH Ha]; intros Hn; constructor;
    inversion Hn as [|? ? Hnotin Hn']; subst; auto.
  rewrite Forall_forall in *. intros b Hb.
  destruct (proj1 (str_le_iff a b) (Ha b Hb)) as [H | ->]; [assumption | contradiction].
Qed.

Lemma strict_NoDup (l : list string) : StronglySorted Py.str_lt l -> NoDup l.
Proof.
  induction 1 as [|a l Hs IH Ha]; constructor; auto.
  intros Hin. rewrite Forall_forall in Ha.
  exact (str_lt_irrefl a (Ha a Hin)).
Qed.

(** [sorted(list(set(l)))] is strictly ascending and has the elements of [l]. *)
Lemma sorted_set_strict (l : list string) :
  StronglySorted Py.str_lt (Py.sorted Py.str_le (Py.set l)).
Proof.
  apply sorted_strict.
  - apply sorted_sorted; [apply str_le_total | apply str_le_trans].
  - eapply Permutation_NoDup; [apply Permutation_sym, sorted_perm |].
    apply NoDup_nodup.
Qed.

Lemma sorted_set_In (l : list string) (x : string) :
  In x (Py.sorted Py.str_le (Py.set l)) <-> In x l.
Proof. rewrite sorted_In. apply nodup_In. Qed.


(** *** dict *)

Section DictFacts.
Context {V : Type}.
Implicit Types (d : Py.dict V) (k : string) (v : V).

Lemma get_setitem d k v k' :
  Py.get (Py.setitem d k v) k' = if String.eqb k k' then Some v else Py.get d k'.
Proof.
  induction d as [|[k0 v0] d IH]; simpl.
  - reflexivity.
  - destruct (String.eqb_spec k0 k) as [-> | Hne]; simpl.
    + destruct (String.eqb k k'); reflexivity.
    + rewrite IH. destruct (String.eqb_spec k0 k') as [-> | Hne'].
      * destruct (String.eqb_spec k k'); [congruence | reflexivity].
      * reflexivity.
Qed.

Lemma keys_setitem d k v k' :
  In k' (Py.keys (Py.setitem d k v)) <-> k' = k \/ In k' (Py.keys d).
Proof.
  unfold Py.keys. induction d as [|[k0 v0] d IH]; simpl.
  - intuition congruence.
  - destruct (String.eqb_spec k0 k) as [-> | Hne]; simpl.
    + intuition congruence.
    + rewrite IH. intuition congruence.
Qed.

Lemma setitem_NoDup d k v :
  NoDup (Py.keys d) -> NoDup (Py.keys (Py.setitem d k v)).
Proof.
  unfold Py.keys. induction d as [|[k0 v0] d IH]; simpl; intros Hn.
  - repeat constructor. intros [].
  - inversion Hn as [|? ? Hnotin Hn']; subst.
    destruct (String.eqb_spec k0 k) as [-> | Hne]; simpl.
    + constructor; assumption.
    + constructor; [| auto].
      intros Hin. apply (keys_setitem d k v k0) in Hin.
      destruct Hin; [congruence | contradiction].
Qed.

Lemma get_None d k : Py.get d k = None <-> ~ In k (Py.keys d).
Proof.
  unfold Py.keys. induction d as [|[k0 v0] d IH]; simpl.
  - intuition.
  - destruct (String.eqb_spec k0 k) as [-> | Hne].
    + split; [discriminate | intros H; exfalso; auto].
    + rewrite IH. intuition.
Qed.

Lemma get_In d k v :
  NoDup (Py.keys d) -> (Py.get d k = Some v <-> In (k, v) d).
Proof.
  unfold Py.keys. induction d as [|[k0 v0] d IH]; simpl; intros Hn.
  - split; [discriminate | intros []].
  - inversion Hn as [|? ? Hnotin Hn']; subst.
    destruct (String.eqb_spec k0 k) as [-> | Hne].
    + split.
      * intros [= ->]. auto.
      * intros [[= ->] | Hin]; [reflexivity |].
        exfalso. apply Hnotin. apply (in_map fst) in Hin. exact Hin.
    + rewrite (IH Hn'). split; [auto |].
      intros [[= -> ->] | Hin]; [congruence | assumption].
Qed.

Lemma setitem_length_new d k v :
  Py.get d k = None -> List.length (Py.setitem d k v) = S (List.length d).
Proof.
  induction d as [|[k0 v0] d IH]; simpl; [reflexivity |].
  destruct (String.eqb k0 k); [discriminate |].
  intros H. simpl. rewrite (IH H). reflexivity.
Qed.
End DictFacts.

(* ================================================================== *)
(** * Grouping by version *)

(** One round of the loop leaves every group alone but that of the round's
    version, to which it appends the round's artifact. *)
Lemma get_group_step (g : Py.dict (list string)) (a ver v : string) :
  Py.get (group_step g (a, ver)) v
  = if String.eqb ver v then Some (members_of g ver ++ [a])%list else Py.get g v.
Proof.
  unfold group_step, members_of, Py.mem; simpl.
  destruct (Py.get g ver) as [m |] eqn:E; simpl.
  - rewrite E, get_setitem. reflexivity.
  - rewrite (get_setitem g ver [] ver), String.eqb_refl, !get_setitem.
    destruct (String.eqb ver v); reflexivity.
Qed.

Lemma grouped_step seen g a ver :
  grouped seen g -> grouped (seen ++ [(a, ver)]) (group_step g (a, ver)).
Proof.
  intros Hg k v. rewrite in_app_iff, get_group_step, (Hg k v). simpl.
  destruct (String.eqb_spec ver v) as [-> | Hne].
  - unfold members_of. split.
    + intros [(m & Hm & Hin) | [[= ->] | []]].
      * rewrite Hm. eexists; split; [reflexivity |]. apply in_or_app; auto.
      * eexists; split; [reflexivity |]. apply in_or_app; simpl; auto.
    + intros (m & [= <-] & Hin). apply in_app_or in Hin.
      destruct Hin as [Hin | [-> | []]]; [| auto].
      left. destruct (Py.get g v) as [m |]; [eauto | destruct Hin].
  - split; [| auto]. intros [H | [[= _ E] | []]]; [assumption | congruence].
Qed.

Lemma grouped_fold (l seen : list (string * string)) g :
  grouped seen g -> grouped (seen ++ l) (fold_left group_step l g).
Proof.
  revert seen g. induction l as [|[a ver] l IH]; intros seen g Hg; simpl.
  - rewrite app_nil_r. assumption.
  - replace (seen ++ (a, ver) :: l)%list with ((seen ++ [(a, ver)]) ++ l)%list
      by (rewrite <- app_assoc; reflexivity).
    apply IH, grouped_step, Hg.
Qed.

Lemma group_by_version_grouped (versions : Py.dict string) :
  grouped versions (group_by_version versions).
Proof.
  apply (grouped_fold versions [] []).
  intros k v. split; [intros [] | intros (m & H & _); discriminate].
Qed.

(** The round trip between a dict with unique keys and its grouping. *)
Lemma group_by_version_round_trip (versions : Py.dict string) :
  NoDup (Py.keys versions) ->
  forall k v,
    Py.get versions k = Some v <->
    exists members, Py.get (group_by_version versions) v = Some members
                    /\ In k members.
Proof.
  intros Hn k v. rewrite (get_In versions k v Hn).
  apply group_by_version_grouped.
Qed.

(* ================================================================== *)
(** * Reasoning about effects *)

Lemma yields_ret {A} (k : nat) (a : A) : yields_at k (ret a) a 0 [].
Proof.
  intros [c t] Hk; simpl in *; subst. unfold ret. rewrite app_nil_r. reflexivity.
Qed.

Lemma yields_emit (k : nat) (e : event) : yields_at k (emit e) tt 0 [e].
Proof. intros [c t] Hk; simpl in *; subst. reflexivity. Qed.

Lemma yields_bind {A B} (k : nat) (m : M A) (f : A -> M B) a b d1 d2 e1 e2 :
  yields_at k m a d1 e1 ->
  yields_at (d1 + k) (f a) b d2 e2 ->
  yields_at k (bind m f) b (d2 + d1) (e1 ++ e2).
Proof.
  intros Hm Hf st Hk. unfold bind. rewrite (Hm st Hk).
  rewrite (Hf {| clock_reads := d1 + k; trace := trace st ++ e1 |} eq_refl).
  simpl. rewrite app_assoc, Nat.add_assoc. reflexivity.
Qed.

Lemma yields_eq {A} (k : nat) (m : M A) a d d' evs evs' :
  yields_at k m a d evs -> d = d' -> evs = evs' -> yields_at k m a d' evs'.
Proof. intros H <- <-. exact H. Qed.

Lemma yields_for_each {A S} (body : A -> S -> M S) (step : S -> A -> S)
    (evs : A -> list event) :
  (forall x acc k, yields_at k (body x acc) (step acc x) 0 (evs x)) ->
  forall l acc k,
    yields_at k (for_each l body acc) (fold_left step l acc) 0 (flat_map evs l).
Proof.
  intros Hbody. induction l as [|x l IH]; intros acc k; simpl.
  - apply yields_ret.
  - eapply yields_eq; [eapply yields_bind; [apply Hbody | apply IH] | |];
      reflexivity.
Qed.

Lemma yields_for_each_unit {A} (body : A -> unit -> M unit)
    (evs : A -> list event) :
  (forall x k, yields_at k (body x tt) tt 0 (evs x)) ->
  forall l k, yields_at k (for_each l body tt) tt 0 (flat_map evs l).
Proof.
  intros Hbody. induction l as [|x l IH]; intros k; simpl.
  - apply yields_ret.
  - eapply yields_eq; [eapply yields_bind; [apply Hbody | apply IH] | |];
      reflexivity.
Qed.

Lemma yields_run {A} (m : M A) a d evs : yields_at 0 m a d evs -> run m = evs.
Proof. intros H. unfold run. rewrite (H initial eq_refl). reflexivity. Qed.

Lemma files_of_app (s t : list event) : files_of (s ++ t) = (files_of s ++ files_of t)%list.
Proof. apply flat_map_app. Qed.

Lemma gets_of_app (s t : list event) : gets_of (s ++ t) = (gets_of s ++ gets_of t)%list.
Proof. apply flat_map_app. Qed.

Lemma prints_of_app (s t : list event) : prints_of (s ++ t) = (prints_of s ++ prints_of t)%list.
Proof. apply flat_map_app. Qed.

(** Splits a sequence of binds into its steps. *)
Ltac yields :=
  lazymatch goal with
  | |- yields_at _ (bind _ _) _ _ _ =>
      eapply yields_bind; [yields | cbv beta; yields]
  | |- yields_at _ (print _) _ _ _ => apply yields_emit
  | |- yields_at _ sleep _ _ _ => apply yields_emit
  | |- yields_at _ (write_file _ _) _ _ _ => apply yields_emit
  | |- yields_at _ (ret _) _ _ _ => apply yields_ret
  | |- _ => idtac
  end.

(* ================================================================== *)
(** * The code returns what [listed], [resolved] and [version_map] say *)

Section RunFacts.
Variable requests_get : string -> outcome Response.
Variable html_parser : string -> outcome Bs4.node.
Variable clock : nat -> Datetime.datetime.

Local Abbreviation the_listed := (listed requests_get html_parser).
Local Abbreviation the_resolved := (resolved requests_get html_parser).
Local Abbreviation the_version_map := (version_map requests_get html_parser).

Lemma yields_now (k : nat) : yields_at k (datetime_now clock) (clock k) 1 [].
Proof.
  intros [c t] Hk; simpl in *; subst. unfold datetime_now; simpl.
  rewrite app_nil_r. reflexivity.
Qed.

(** The [try] body of the resolver either returns what [fetch] and
    [scrape_version] give or raises what [fetch] raises. *)
Lemma latest_version_body_run (artifact_id : string) (st : state) :
  latest_version_body requests_get html_parser artifact_id st
  = (match fetch requests_get html_parser (artifact_url artifact_id) with
     | Returned soup => Returned (option_map snd (scrape_version soup))
     | Raised e => Raised e
     end,
     {| clock_reads := clock_reads st;
        trace := trace st ++ [Fetched (artifact_url artifact_id)] |}).
Proof.
  unfold latest_version_body.
  generalize (artifact_url artifact_id) as url; intros url.
  unfold fetch, http_get, raise_for_status, BeautifulSoup,
    bind, emit, ret, raise; cbn -[Nat.leb Nat.ltb].
  destruct (requests_get url) as [r | e]; [| reflexivity].
  destruct ((400 <=? status_code r) && (status_code r <? 600))%nat; [reflexivity |].
  destruct (html_parser (body r)); reflexivity.
Qed.

Lemma latest_version_returns (k : nat) (artifact_id : string) :
  yields_at k (get_latest_version requests_get html_parser artifact_id)
            (the_resolved artifact_id) 0 [Fetched (artifact_url artifact_id)].
Proof.
  intros st Hk. unfold get_latest_version, try_except, resolved.
  rewrite latest_version_body_run.
  destruct (fetch requests_get html_parser (artifact_url artifact_id));
    unfold ret; simpl; subst; reflexivity.
Qed.

Lemma artifacts_body_run (st : state) :
  artifacts_body requests_get html_parser st
  = (match fetch requests_get html_parser namespace_url with
     | Returned soup => Returned (scrape_artifacts soup)
     | Raised e => Raised e
     end,
     {| clock_reads := clock_reads st;
        trace := trace st ++ [Fetched namespace_url] |}).
Proof.
  unfold artifacts_body.
  generalize namespace_url as url; intros url.
  unfold fetch, http_get, raise_for_status, BeautifulSoup,
    bind, emit, ret, raise; cbn -[Nat.leb Nat.ltb].
  destruct (requests_get url) as [r | e]; [| reflexivity].
  destruct ((400 <=? status_code r) && (status_code r <? 600))%nat; [reflexivity |].
  destruct (html_parser (body r)); reflexivity.
Qed.

Lemma artifacts_returns (k : nat) :
  yields_at k (get_all_javaparser_artifacts requests_get html_parser)
            the_listed 0 (listing_events requests_get html_parser).
Proof.
  intros st Hk.
  unfold get_all_javaparser_artifacts, try_except, listed, listing_events,
    bind, print, emit; simpl.
  rewrite artifacts_body_run; simpl.
  destruct (fetch requests_get html_parser namespace_url);
    unfold bind, ret, emit; simpl; subst; rewrite <- !app_assoc; reflexivity.
Qed.

Lemma fold_left_enumerate1 {S} (f : S -> string -> S) (l : list string) (n : nat) acc :
  fold_left (fun acc (ia : nat * string) => f acc (snd ia))
            (combine (seq n (List.length l)) l) acc
  = fold_left f l acc.
Proof.
  revert n acc. induction l as [|x l IH]; intros n acc; simpl; [reflexivity |].
  apply IH.
Qed.

Lemma record_version_yields (k : nat) (versions : Py.dict string)
    (artifact : string) (version : option string) :
  yields_at k
    (match version with
     | Some v =>
         if Py.truthy v
         then bind (print (Resolved v)) (fun _ => ret (Py.setitem versions artifact v))
         else bind (print NoStable) (fun _ => ret versions)
     | None => bind (print NoStable) (fun _ => ret versions)
     end)
    (match version with
     | Some v => if Py.truthy v then Py.setitem versions artifact v else versions
     | None => versions
     end)
    0
    [Printed (match version with
              | Some v => if Py.truthy v then Resolved v else NoStable
              | None => NoStable
              end)].
Proof.
  destruct version as [v |]; [destruct (Py.truthy v) |];
    (eapply yields_eq; [yields | reflexivity | reflexivity]).
Qed.

Lemma check_artifacts_returns (k : nat) (artifacts : list string) :
  yields_at k (check_artifacts requests_get html_parser artifacts)
    (the_version_map artifacts) 0
    (flat_map (check_events requests_get html_parser (List.length artifacts))
              (enumerate1 artifacts)).
Proof.
  unfold check_artifacts, version_map, enumerate1.
  rewrite <- (fold_left_enumerate1 (version_step requests_get html_parser)
                artifacts 1 []).
  apply yields_for_each. intros [i a] versions k'.
  eapply yields_eq.
  - yields; [apply latest_version_returns | apply record_version_yields].
  - reflexivity.
  - reflexivity.
Qed.

Lemma print_groups_yields (k : nat) (version_groups : Py.dict (list string)) :
  yields_at k (print_groups version_groups) tt 0 (group_events version_groups).
Proof.
  unfold print_groups, group_events.
  apply yields_for_each_unit. intros version k'.
  eapply yields_eq.
  - yields. apply yields_for_each_unit. intros artifact k''. apply yields_emit.
  - reflexivity.
  - simpl. reflexivity.
Qed.

Lemma report_yields (k : nat) (artifacts : list string) (versions : Py.dict string) :
  yields_at k (report clock artifacts versions) tt 4
            (report_events clock k artifacts versions).
Proof.
  unfold report. eapply yields_eq.
  - yields; try apply print_groups_yields; try apply yields_now; yields.
  - reflexivity.
  - unfold report_events, reports. cbn [nth fst snd app Nat.add]. reflexivity.
Qed.

(** The events of a run are [main_events]. *)
Lemma main_run :
  run (main requests_get html_parser clock)
  = main_events requests_get html_parser clock.
Proof.
  unfold main, main_events.
  destruct the_listed as [| a l] eqn:El.
  - eapply yields_run. eapply yields_eq.
    + yields. apply artifacts_returns. rewrite El. apply yields_emit.
    + reflexivity.
    + cbn [app]. rewrite <- ?app_assoc. reflexivity.
  - destruct (the_version_map (a :: l)) as [| p vs] eqn:Ev.
    + eapply yields_run. eapply yields_eq.
      * yields. apply artifacts_returns. rewrite El. yields.
        apply check_artifacts_returns. yields. rewrite Ev. apply yields_emit.
      * reflexivity.
      * cbn [app]. rewrite <- ?app_assoc. reflexivity.
    + eapply yields_run. eapply yields_eq.
      * yields. apply artifacts_returns. rewrite El. yields.
        apply check_artifacts_returns. yields. rewrite Ev. apply report_yields.
      * reflexivity.
      * cbn [app]. rewrite <- ?app_assoc. reflexivity.
Qed.

End RunFacts.

(* ================================================================== *)
(** * The resolver *)

Lemma match_version_truthy (s : string) :
  Re.match_version s = true -> Py.truthy s = true.
Proof. destruct s; [discriminate | reflexivity]. Qed.

Lemma version_of_match (n : Bs4.node) :
  version_of n
  = if Re.match_version (Py.strip (Bs4.text n))
    then Some (Py.strip (Bs4.text n)) else None.
Proof.
  unfold version_of.
  destruct (Re.match_version (Py.strip (Bs4.text n))) eqn:E.
  - rewrite (match_version_truthy _ E). reflexivity.
  - rewrite andb_false_r. reflexivity.
Qed.

Lemma version_of_truthy (n : Bs4.node) (v : string) :
  version_of n = Some v -> Py.truthy v = true.
Proof.
  rewrite version_of_match.
  destruct (Re.match_version (Py.strip (Bs4.text n))) eqn:E; [| discriminate].
  intros [= <-]. apply match_version_truthy, E.
Qed.

(** The loop of lines 70-74 returns the trimmed text of the first link that
    is a release with a version number. *)
Lemma release_loop_find (version_links : list Bs4.element) :
  release_loop version_links
  = option_map (fun e => Py.strip (Bs4.text (Bs4.node_of e)))
               (List.find release_match version_links).
Proof.
  induction version_links as [| link rest IH]; simpl; [reflexivity |].
  unfold release_match at 1. rewrite version_of_match.
  destruct (Bs4.has_class "release" (Bs4.node_of link)); simpl; [| exact IH].
  destruct (Re.match_version (Py.strip (Bs4.text (Bs4.node_of link))));
    [reflexivity | exact IH].
Qed.

Lemma scrape_version_release (soup : Bs4.node) (link : Bs4.element) :
  first_release_match soup = Some link ->
  scrape_version soup
  = Some (ReleaseButton, Py.strip (Bs4.text (Bs4.node_of link))).
Proof.
  unfold first_release_match, scrape_version. intros H.
  rewrite release_loop_find, H. reflexivity.
Qed.

Section ResolverFacts.
Variable requests_get : string -> outcome Response.
Variable html_parser : string -> outcome Bs4.node.

Lemma latest_version_value (artifact_id : string) (st : state) :
  fst (get_latest_version requests_get html_parser artifact_id st)
  = Returned (resolved requests_get html_parser artifact_id).
Proof.
  rewrite (latest_version_returns requests_get html_parser (clock_reads st)
             artifact_id st eq_refl).
  reflexivity.
Qed.

Lemma resolved_truthy (artifact_id v : string) :
  resolved requests_get html_parser artifact_id = Some v -> Py.truthy v = true.
Proof.
  unfold resolved.
  destruct (fetch requests_get html_parser (artifact_url artifact_id)) as [soup |];
    [| discriminate].
  unfold scrape_version, first_button, version_number.
  destruct (release_loop _) as [v1 |] eqn:E1.
  - intros [= <-]. rewrite release_loop_find in E1.
    destruct (find release_match _) as [e |] eqn:F; [| discriminate].
    injection E1 as <-. apply find_some in F. destruct F as [_ F].
    unfold release_match in F. apply andb_prop in F.
    apply match_version_truthy, F.
  - destruct (Bs4.find_all_class "a" "vbtn" soup) as [| link rest].
    + destruct (Bs4.find_class "a" "vnum" soup) as [e |]; [| discriminate].
      destruct (version_of (Bs4.node_of e)) as [v3 |] eqn:E3; [| discriminate].
      intros [= <-]. eapply version_of_truthy, E3.
    + destruct (version_of (Bs4.node_of link)) as [v2 |] eqn:E2.
      * intros [= <-]. eapply version_of_truthy, E2.
      * destruct (Bs4.find_class "a" "vnum" soup) as [e |]; [| discriminate].
        destruct (version_of (Bs4.node_of e)) as [v3 |] eqn:E3; [| discriminate].
        intros [= <-]. eapply version_of_truthy, E3.
Qed.

(** C3.  [get_latest_version] never lets an exception out: from every state
    it returns a value, and whenever the body of its [try] (the fetch of the
    detail page and its parsing, lines 61-89) raises, the value is [None]. *)
Theorem resolver_never_raises (artifact_id : string) (st : state) :
  (exists r st',
     get_latest_version requests_get html_parser artifact_id st
     = (Returned r, st'))
  /\ (forall e st',
        latest_version_body requests_get html_parser artifact_id st
        = (Raised e, st') ->
        get_latest_version requests_get html_parser artifact_id st
        = (Returned None, st')).
Proof.
  unfold get_latest_version, try_except. split.
  - destruct (latest_version_body requests_get html_parser artifact_id st)
      as [[r | e] st']; unfold ret; eauto.
  - intros e st' H. rewrite H. reflexivity.
Qed.

(** The three ways the body of the [try] raises: the request fails, the
    status is an error, the parser rejects the markup.  Each gives [None]. *)
Lemma resolver_none_on_failure (artifact_id : string) (st : state) :
  (forall e, requests_get (artifact_url artifact_id) = Raised e ->
     fst (get_latest_version requests_get html_parser artifact_id st)
     = Returned None)
  /\ (forall r, requests_get (artifact_url artifact_id) = Returned r ->
        (400 <= status_code r < 600)%nat ->
        fst (get_latest_version requests_get html_parser artifact_id st)
        = Returned None)
  /\ (forall r e, requests_get (artifact_url artifact_id) = Returned r ->
        html_parser (body r) = Raised e ->
        fst (get_latest_version requests_get html_parser artifact_id st)
        = Returned None).
Proof.
  rewrite latest_version_value. unfold resolved, fetch.
  repeat split.
  - intros e ->. reflexivity.
  - intros r -> [H1 H2].
    apply Nat.leb_le in H1. apply Nat.ltb_lt in H2. rewrite H1, H2. reflexivity.
  - intros r e -> H.
    destruct ((400 <=? status_code r) && (status_code r <? 600))%nat;
      [| rewrite H]; reflexivity.
Qed.

(** C2, as amended.  When the detail page of an artifact is served and its
    first version-selector link that is tagged [release] and whose trimmed
    text matches the version pattern is [link], the resolver returns the
    trimmed text of [link]; in particular it returns 3.25.4 when the text of
    that first link is 3.25.4. *)
Theorem resolver_first_release (artifact_id : string) (soup : Bs4.node)
    (link : Bs4.element) (st : state) :
  fetch requests_get html_parser (artifact_url artifact_id) = Returned soup ->
  first_release_match soup = Some link ->
  fst (get_latest_version requests_get html_parser artifact_id st)
  = Returned (Some (Py.strip (Bs4.text (Bs4.node_of link))))
  /\ (Bs4.text (Bs4.node_of link) = "3.25.4" ->
      fst (get_latest_version requests_get html_parser artifact_id st)
      = Returned (Some "3.25.4")).
Proof.
  intros Hf Hl. rewrite latest_version_value. unfold resolved. rewrite Hf.
  rewrite (scrape_version_release soup link Hl). simpl.
  split; [reflexivity |]. intros ->. reflexivity.
Qed.

(** C5, as amended.  When the detail page has no version-selector link and
    exactly one [vnum] link, the resolver returns none if the trimmed text of
    that link does not match the version pattern; the text
    1.0.0-SNAPSHOT-ish does match it (digits.digits.digits, then a
    qualifier), and for it the resolver returns 1.0.0-SNAPSHOT-ish. *)
Theorem resolver_vnum_only (artifact_id : string) (soup : Bs4.node)
    (e : Bs4.element) (st : state) :
  fetch requests_get html_parser (artifact_url artifact_id) = Returned soup ->
  Bs4.find_all_class "a" "vbtn" soup = [] ->
  Bs4.find_all_class "a" "vnum" soup = [e] ->
  (Re.match_version (Py.strip (Bs4.text (Bs4.node_of e))) = false ->
   fst (get_latest_version requests_get html_parser artifact_id st)
   = Returned None)
  /\ (Bs4.text (Bs4.node_of e) = "1.0.0-SNAPSHOT-ish" ->
      fst (get_latest_version requests_get html_parser artifact_id st)
      = Returned (Some "1.0.0-SNAPSHOT-ish")).
Proof.
  intros Hf Hb Hv. rewrite latest_version_value. unfold resolved. rewrite Hf.
  unfold scrape_version, version_number, Bs4.find_class.
  rewrite Hb, Hv. simpl. rewrite version_of_match. split.
  - intros ->. reflexivity.
  - intros ->. reflexivity.
Qed.
End ResolverFacts.

(** C6, as amended.  The version comes from the second strategy (the first
    version-selector link, line 80) exactly when no version-selector link is
    both tagged [release] and matching the version pattern, a version-selector
    link exists, and the trimmed text of the first one matches; so on a page
    with a matching release link the second strategy is not used. *)
Theorem first_button_iff (soup : Bs4.node) (v : string) :
  (scrape_version soup = Some (FirstButton, v) <->
   first_release_match soup = None
   /\ exists link rest,
        Bs4.find_all_class "a" "vbtn" soup = link :: rest
        /\ version_of (Bs4.node_of link) = Some v)
  /\ (first_release_match soup <> None ->
      scrape_version soup <> Some (FirstButton, v)).
Proof.
  assert (H : scrape_version soup = Some (FirstButton, v) <->
              first_release_match soup = None
              /\ exists link rest,
                   Bs4.find_all_class "a" "vbtn" soup = link :: rest
                   /\ version_of (Bs4.node_of link) = Some v).
  { unfold scrape_version, first_release_match, first_button, version_number.
    rewrite release_loop_find.
    destruct (find release_match (Bs4.find_all_class "a" "vbtn" soup)) as [e |];
      simpl.
    - split; [discriminate | intros [[=] _]].
    - destruct (Bs4.find_all_class "a" "vbtn" soup) as [| link rest].
      + split.
        * destruct (Bs4.find_class "a" "vnum" soup) as [e |];
            [destruct (version_of (Bs4.node_of e)) |]; discriminate.
        * intros [_ (link & rest & [=] & _)].
      + destruct (version_of (Bs4.node_of link)) as [v2 |] eqn:E2.
        * split.
          -- intros [= <-]. split; [reflexivity |]. eauto.
          -- intros [_ (l & r & [= <- <-] & Hv)]. congruence.
        * split.
          -- destruct (Bs4.find_class "a" "vnum" soup) as [e |];
               [destruct (version_of (Bs4.node_of e)) |]; discriminate.
          -- intros [_ (l & r & [= <- <-] & Hv)]. congruence. }
  split; [exact H |].
  intros Hne Hs. apply H in Hs. destruct Hs as [Hnone _]. contradiction.
Qed.

(* ================================================================== *)
(** * The version map of a run *)

Section VersionMapFacts.
Variable requests_get : string -> outcome Response.
Variable html_parser : string -> outcome Bs4.node.

Local Abbreviation the_listed := (listed requests_get html_parser).
Local Abbreviation the_resolved := (resolved requests_get html_parser).
Local Abbreviation the_step := (version_step requests_get html_parser).
Local Abbreviation the_version_map := (version_map requests_get html_parser).

Lemma version_step_set (versions : Py.dict string) (a : string) :
  the_step versions a
  = match the_resolved a with
    | Some v => Py.setitem versions a v
    | None => versions
    end.
Proof.
  unfold version_step. destruct (the_resolved a) as [v |] eqn:E; [| reflexivity].
  rewrite (resolved_truthy _ _ _ _ E). reflexivity.
Qed.

Lemma version_fold_NoDup (l : list string) (acc : Py.dict string) :
  NoDup (Py.keys acc) -> NoDup (Py.keys (fold_left the_step l acc)).
Proof.
  revert acc. induction l as [| a l IH]; intros acc Hn; simpl; [assumption |].
  apply IH. rewrite version_step_set.
  destruct (the_resolved a); [apply setitem_NoDup |]; assumption.
Qed.

Lemma version_map_NoDup (l : list string) : NoDup (Py.keys (the_version_map l)).
Proof. apply version_fold_NoDup. constructor. Qed.

Lemma version_fold_get (l : list string) (acc : Py.dict string) :
  (forall a v, Py.get acc a = Some v -> the_resolved a = Some v) ->
  forall a v,
    Py.get (fold_left the_step l acc) a = Some v <->
    (In a l /\ the_resolved a = Some v) \/ Py.get acc a = Some v.
Proof.
  revert acc. induction l as [| x l IH]; intros acc Hacc a v; simpl.
  - intuition.
  - assert (Hstep : forall b w, Py.get (the_step acc x) b = Some w <->
                      (b = x /\ the_resolved x = Some w) \/ Py.get acc b = Some w).
    { intros b w. rewrite version_step_set.
      destruct (the_resolved x) as [vx |] eqn:Ex.
      - rewrite get_setitem. destruct (String.eqb_spec x b) as [<- | Hne].
        + split.
          * intros [= <-]. auto.
          * intros [[_ H] | H]; [exact H |].
            apply Hacc in H. congruence.
        + split; [auto |]. intros [[H _] | H]; [congruence | exact H].
      - split; [auto |]. intros [[_ H] | H]; [discriminate | exact H]. }
    rewrite IH.
    + rewrite Hstep. split.
      * intros [[H1 H2] | [[-> H] | H]]; auto.
      * intros [[[<- | H1] H2] | H]; auto.
    + intros b w Hb. apply Hstep in Hb.
      destruct Hb as [[-> H] | H]; [exact H | apply Hacc, H].
Qed.

(** An artifact is in the version map exactly when it was listed and the
    resolver returned a version for it. *)
Lemma version_map_get (l : list string) (a v : string) :
  Py.get (the_version_map l) a = Some v <-> In a l /\ the_resolved a = Some v.
Proof.
  unfold version_map. rewrite version_fold_get.
  - simpl. intuition discriminate.
  - intros b w; discriminate.
Qed.

Lemma version_map_nonempty (l : list string) :
  the_version_map l <> [] <-> exists a v, In a l /\ the_resolved a = Some v.
Proof.
  split.
  - destruct (the_version_map l) as [| [a v] d] eqn:E; [congruence |].
    intros _. exists a, v. apply version_map_get. rewrite E. simpl.
    rewrite String.eqb_refl. reflexivity.
  - intros (a & v & H) E. apply version_map_get in H. rewrite E in H.
    discriminate.
Qed.

Lemma version_fold_length (l : list string) (acc : Py.dict string) :
  NoDup l -> (forall a, In a l -> Py.get acc a = None) ->
  List.length (fold_left the_step l acc)
  = List.length acc + List.length (filter (fun a => is_some (the_resolved a)) l).
Proof.
  revert acc. induction l as [| x l IH]; intros acc Hn Hacc; simpl.
  - lia.
  - inversion Hn as [| ? ? Hx Hn']; subst.
    rewrite IH; [| assumption |].
    + rewrite version_step_set. destruct (the_resolved x) as [v |]; simpl; [| lia].
      rewrite setitem_length_new by (apply Hacc; simpl; auto). lia.
    + intros a Ha. rewrite version_step_set.
      destruct (the_resolved x) as [v |]; [| apply Hacc; simpl; auto].
      rewrite get_setitem. destruct (String.eqb_spec x a) as [<- | _];
        [contradiction | apply Hacc; simpl; auto].
Qed.

Lemma listed_strict : StronglySorted Py.str_lt the_listed.
Proof.
  unfold listed. destruct (fetch requests_get html_parser namespace_url).
  - apply sorted_set_strict.
  - constructor.
Qed.

(** The version map has one entry per listed artifact that resolved. *)
Lemma version_map_length :
  List.length (the_version_map the_listed)
  = List.length (filter (fun a => is_some (the_resolved a)) the_listed).
Proof.
  unfold version_map. rewrite version_fold_length; [reflexivity | |].
  - apply strict_NoDup, listed_strict.
  - reflexivity.
Qed.

(** C1.  The loop of lines 113-124 returns a version map, and the groups
    built from it by lines 136-140 agree with it both ways: an artifact [k]
    has version [v] in the map exactly when the group of [v] exists and
    contains [k]. *)
Theorem version_groups_round_trip (artifacts : list string) (st : state) :
  exists versions st',
    check_artifacts requests_get html_parser artifacts st
    = (Returned versions, st')
    /\ forall k v,
         Py.get versions k = Some v <->
         exists members,
           Py.get (group_by_version versions) v = Some members /\ In k members.
Proof.
  eexists _, _. split.
  - exact (check_artifacts_returns requests_get html_parser (clock_reads st)
             artifacts st eq_refl).
  - apply group_by_version_round_trip, version_map_NoDup.
Qed.
End VersionMapFacts.

(* ================================================================== *)
(** * What a run fetches, prints and writes *)

Section MainFacts.
Variable requests_get : string -> outcome Response.
Variable html_parser : string -> outcome Bs4.node.

Local Abbreviation the_listed := (listed requests_get html_parser).
Local Abbreviation the_resolved := (resolved requests_get html_parser).
Local Abbreviation the_version_map := (version_map requests_get html_parser).
Local Abbreviation the_main := (main requests_get html_parser).

Lemma listing_files : files_of (listing_events requests_get html_parser) = [].
Proof.
  unfold listing_events.
  destruct (fetch requests_get html_parser namespace_url); reflexivity.
Qed.

Lemma listing_gets :
  gets_of (listing_events requests_get html_parser) = [namespace_url].
Proof.
  unfold listing_events.
  destruct (fetch requests_get html_parser namespace_url); reflexivity.
Qed.

Lemma checks_files (n : nat) (l : list (nat * string)) :
  files_of (flat_map (check_events requests_get html_parser n) l) = [].
Proof.
  induction l as [| ia l IH]; [reflexivity |].
  cbn [flat_map]. rewrite files_of_app, IH. reflexivity.
Qed.

Lemma checks_gets (n : nat) (l : list (nat * string)) :
  gets_of (flat_map (check_events requests_get html_parser n) l)
  = map (fun ia => artifact_url (snd ia)) l.
Proof.
  induction l as [| ia l IH]; [reflexivity |].
  cbn [flat_map]. rewrite gets_of_app, IH. reflexivity.
Qed.

Lemma enumerate1_snd {A} (l : list A) : map snd (enumerate1 l) = l.
Proof.
  unfold enumerate1. generalize 1. induction l as [| x l IH]; intros n; simpl;
    [reflexivity | rewrite IH; reflexivity].
Qed.

Lemma groups_quiet (g : Py.dict (list string)) :
  files_of (group_events g) = [] /\ gets_of (group_events g) = [].
Proof.
  unfold group_events.
  induction (Py.sorted Py.str_ge (Py.keys g)) as [| v l [IHf IHg]];
    [split; reflexivity |].
  cbn [flat_map]. rewrite files_of_app, gets_of_app, IHf, IHg.
  assert (H : forall (m : list string),
             files_of (flat_map (fun a => [Printed (Member a)]) m ++ [Printed Blank]) = []
             /\ gets_of (flat_map (fun a => [Printed (Member a)]) m ++ [Printed Blank]) = []).
  { induction m as [| a m [IH1 IH2]]; split; try reflexivity; simpl; assumption. }
  destruct (H (Py.sorted Py.str_le (members_of g v))) as [H1 H2].
  simpl. rewrite H1, H2. split; reflexivity.
Qed.

Lemma report_files clock (k : nat) (artifacts : list string)
    (versions : Py.dict string) :
  files_of (report_events clock k artifacts versions) = reports clock k versions.
Proof.
  unfold report_events. rewrite !files_of_app.
  rewrite (proj1 (groups_quiet _)). reflexivity.
Qed.

Lemma report_gets clock (k : nat) (artifacts : list string)
    (versions : Py.dict string) :
  gets_of (report_events clock k artifacts versions) = [].
Proof.
  unfold report_events. rewrite !gets_of_app.
  rewrite (proj2 (groups_quiet _)). reflexivity.
Qed.

(** The files of a run: none when no artifact resolved, else the four
    reports, in the order they are written. *)
Lemma main_files clock :
  files_of (run (the_main clock))
  = match the_version_map the_listed with
    | [] => []
    | _ => reports clock 0 (the_version_map the_listed)
    end.
Proof.
  rewrite main_run. unfold main_events.
  rewrite !files_of_app, listing_files.
  destruct the_listed as [| a l] eqn:El; [reflexivity |].
  rewrite !files_of_app, checks_files.
  destruct (the_version_map (a :: l)) as [| p vs] eqn:Ev; [reflexivity |].
  rewrite report_files. reflexivity.
Qed.

(** The pages a run asks for: the index, then every listed artifact. *)
Lemma main_gets clock :
  gets_of (run (the_main clock)) = namespace_url :: map artifact_url the_listed.
Proof.
  rewrite main_run. unfold main_events.
  rewrite !gets_of_app, listing_gets.
  destruct the_listed as [| a l] eqn:El; [reflexivity |].
  rewrite !gets_of_app, checks_gets, <- El.
  rewrite <- (map_map snd artifact_url), enumerate1_snd.
  destruct (the_version_map the_listed); [| rewrite report_gets];
    simpl; rewrite ?app_nil_r; reflexivity.
Qed.

Lemma main_prints_no_artifacts clock :
  the_listed = [] ->
  exists earlier, prints_of (run (the_main clock)) = (earlier ++ [NoArtifacts])%list.
Proof.
  intros El. rewrite main_run. unfold main_events. rewrite El.
  rewrite !prints_of_app. rewrite !app_assoc. eexists. reflexivity.
Qed.

Lemma main_prints_no_versions clock :
  the_listed <> [] -> the_version_map the_listed = [] ->
  exists earlier, prints_of (run (the_main clock)) = (earlier ++ [NoVersions])%list.
Proof.
  intros El Ev. rewrite main_run. unfold main_events. rewrite Ev.
  destruct the_listed as [| a l]; [congruence |].
  rewrite !prints_of_app.
  change (prints_of [Printed NoVersions]) with [NoVersions].
  rewrite !app_assoc. eexists. reflexivity.
Qed.

(** C4.  A run writes files exactly when some listed artifact resolved to a
    version.  When the lister returns nothing, the run fetches the index page
    only, prints the no-artifacts message last and writes nothing; when
    artifacts are listed and each resolves to none, the run fetches every
    detail page, prints the no-versions message last and writes nothing. *)
Theorem files_iff_some_version clock :
  (files_of (run (the_main clock)) <> [] <->
   exists a v, In a the_listed /\ the_resolved a = Some v)
  /\ (the_listed = [] ->
      files_of (run (the_main clock)) = []
      /\ gets_of (run (the_main clock)) = [namespace_url]
      /\ exists earlier,
           prints_of (run (the_main clock)) = (earlier ++ [NoArtifacts])%list)
  /\ (the_listed <> [] ->
      (forall a, In a the_listed -> the_resolved a = None) ->
      files_of (run (the_main clock)) = []
      /\ gets_of (run (the_main clock))
         = namespace_url :: map artifact_url the_listed
      /\ exists earlier,
           prints_of (run (the_main clock)) = (earlier ++ [NoVersions])%list).
Proof.
  split; [| split].
  - rewrite <- version_map_nonempty, main_files.
    destruct (the_version_map the_listed) eqn:E.
    + tauto.
    + split; [discriminate |]. intros _. unfold reports. discriminate.
  - intros El. rewrite main_files, main_gets. rewrite El at 1 2. simpl.
    repeat split. apply main_prints_no_artifacts, El.
  - intros El Hnone.
    assert (Ev : the_version_map the_listed = []).
    { destruct (the_version_map the_listed) eqn:E; [reflexivity |].
      assert (Hne : the_version_map the_listed <> []) by (rewrite E; discriminate).
      apply version_map_nonempty in Hne. destruct Hne as (a & v & Ha & Hv).
      rewrite (Hnone a Ha) in Hv. discriminate. }
    rewrite main_files, main_gets, Ev.
    repeat split. apply main_prints_no_versions; assumption.
Qed.
End MainFacts.

(* ================================================================== *)
(** * The reports *)

Lemma sorted_items_strict (rows : list (string * string)) :
  StronglySorted (fun p q => Py.pair_le p q = true) rows ->
  NoDup (map fst rows) ->
  StronglySorted (fun p q => Py.str_lt (fst p) (fst q)) rows.
Proof.
  induction 1 as [| p rows Hs IH Hp]; intros Hn; constructor;
    inversion Hn as [| ? ? Hnotin Hn']; subst; auto.
  rewrite Forall_forall in *. intros q Hq.
  destruct (proj1 (str_le_iff _ _) (pair_le_fst _ _ (Hp q Hq))) as [H | H];
    [assumption |].
  exfalso. apply Hnotin. rewrite H. apply in_map, Hq.
Qed.

(** The CSV text is the header and one row per entry, the entries in
    ascending order. *)
Lemma csv_of_rows (versions : Py.dict string) :
  exists rows,
    csv_of versions
    = ("artifact,version" ++ LF) ++ String.concat "" (map csv_row rows)
    /\ List.length rows = List.length versions
    /\ Permutation rows (Py.items versions)
    /\ StronglySorted (fun p q => Py.pair_le p q = true) rows.
Proof.
  exists (Py.sorted Py.pair_le (Py.items versions)). repeat split.
  - apply sorted_length.
  - apply sorted_perm.
  - apply sorted_sorted; [apply pair_le_total | apply pair_le_trans].
Qed.

Section ReportFacts.
Variable requests_get : string -> outcome Response.
Variable html_parser : string -> outcome Bs4.node.

Local Abbreviation the_listed := (listed requests_get html_parser).
Local Abbreviation the_resolved := (resolved requests_get html_parser).
Local Abbreviation the_versions :=
  (version_map requests_get html_parser (listed requests_get html_parser)).
Local Abbreviation the_main := (main requests_get html_parser).

(** C10.  When a run writes files, the first of them, the JSON file, is the
    dump of an object whose member [artifacts_count] is the number of entries
    of the version map, which is the number of listed artifacts that resolved
    to a version. *)
Theorem json_count_is_map_size clock :
  files_of (run (the_main clock)) <> [] ->
  exists name,
    nth_error (files_of (run (the_main clock))) 0
    = Some (name,
            Json.dumps (json_report (clock 2) the_versions
                          (group_by_version the_versions)))
    /\ Json.member "artifacts_count"
         (json_report (clock 2) the_versions (group_by_version the_versions))
       = Some (Json.Int (List.length the_versions))
    /\ List.length the_versions
       = List.length (filter (fun a => is_some (the_resolved a)) the_listed).
Proof.
  rewrite main_files. intros Hne.
  destruct the_versions as [| p vs] eqn:Ev; [congruence |]. rewrite <- Ev.
  eexists. unfold reports. cbn [nth_error].
  split; [reflexivity |]. split; [reflexivity |]. apply version_map_length.
Qed.
End ReportFacts.

(* ================================================================== *)
(** * Two runs in the same second *)

Lemma same_second_compact (a b : Datetime.datetime) :
  Datetime.same_second a b ->
  Datetime.strftime_compact a = Datetime.strftime_compact b.
Proof.
  intros (Hy & Hmo & Hd & Hh & Hmi & Hs). unfold Datetime.strftime_compact.
  rewrite Hy, Hmo, Hd, Hh, Hmi, Hs. reflexivity.
Qed.

Lemma same_second_human (a b : Datetime.datetime) :
  Datetime.same_second a b ->
  Datetime.strftime_human a = Datetime.strftime_human b.
Proof.
  intros (Hy & Hmo & Hd & Hh & Hmi & Hs).
  unfold Datetime.strftime_human, Datetime.ymd, Datetime.hms.
  rewrite Hy, Hmo, Hd, Hh, Hmi, Hs. reflexivity.
Qed.

Lemma same_instant (a b : Datetime.datetime) :
  Datetime.same_second a b ->
  Datetime.microsecond a = Datetime.microsecond b ->
  Datetime.isoformat a = Datetime.isoformat b /\ Datetime.str a = Datetime.str b.
Proof.
  intros (Hy & Hmo & Hd & Hh & Hmi & Hs) Hus.
  unfold Datetime.isoformat, Datetime.str, Datetime.ymd, Datetime.hms,
    Datetime.fraction.
  rewrite Hy, Hmo, Hd, Hh, Hmi, Hs, Hus. split; reflexivity.
Qed.

Section TwoRuns.
Variable requests_get : string -> outcome Response.
Variable html_parser : string -> outcome Bs4.node.

Local Abbreviation the_main := (main requests_get html_parser).

(** C9, as amended.  Two runs against the same remote state whose clock
    readings fall pairwise in the same second write files of the same names,
    in the same order, so the second run overwrites the first's; the second
    and third files (the XML manifest and the CSV table) have the same
    content; the first and the fourth (the JSON report and the summary) have
    the same content when the instants they record, read to the microsecond,
    agree too. *)
Theorem same_second_runs (clock1 clock2 : nat -> Datetime.datetime) :
  (forall i, Datetime.same_second (clock1 i) (clock2 i)) ->
  let files1 := files_of (run (the_main clock1)) in
  let files2 := files_of (run (the_main clock2)) in
  map fst files1 = map fst files2
  /\ nth_error files1 1 = nth_error files2 1
  /\ nth_error files1 2 = nth_error files2 2
  /\ (Datetime.microsecond (clock1 2) = Datetime.microsecond (clock2 2) ->
      nth_error files1 0 = nth_error files2 0)
  /\ (Datetime.microsecond (clock1 3) = Datetime.microsecond (clock2 3) ->
      nth_error files1 3 = nth_error files2 3).
Proof.
  intros Hsame files1 files2. subst files1 files2. rewrite !main_files.
  destruct (version_map requests_get html_parser
              (listed requests_get html_parser)) as [| p vs];
    [repeat split |].
  generalize (p :: vs) as versions; intros versions.
  unfold reports. cbn [map fst nth_error].
  rewrite (same_second_compact _ _ (Hsame 1)).
  unfold xml_of, xml_head. rewrite (same_second_human _ _ (Hsame 0)).
  repeat split.
  - intros Hus. unfold json_report.
    rewrite (proj1 (same_instant _ _ (Hsame 2) Hus)). reflexivity.
  - intros Hus. unfold summary_of.
    rewrite (proj2 (same_instant _ _ (Hsame 3) Hus)). reflexivity.
Qed.
End TwoRuns.

(* ================================================================== *)
(** * Concrete pages and runs *)

Example str_of_int_42 : Py.str_of_int 42 = "42" /\ Py.str_of_int 0 = "0".
Proof. split; reflexivity. Qed.

Example strip_spaces : Py.strip (LF ++ "  3.25.4 " ++ LF) = "3.25.4".
Proof. reflexivity. Qed.

Example split_last_path :
  Py.split_last "/" "/artifact/com.github.javaparser/javaparser-core"
  = "javaparser-core"
  /\ Py.split_last "/" "core" = "core"
  /\ Py.split_last "/" "core/" = "".
Proof. repeat split; reflexivity. Qed.

Example match_version_cases :
  Re.match_version "3.25.4" = true
  /\ Re.match_version "3.25" = false
  /\ Re.match_version "v3.25.4" = false
  /\ Re.match_version "10.0.12-beta" = true.
Proof. repeat split; reflexivity. Qed.

Example search_artifact_link_cases :
  Re.search_artifact_link "/artifact/com.github.javaparser/javaparser-core" = true
  /\ Re.search_artifact_link "/artifact/com.github.javaparser/" = false
  /\ Re.search_artifact_link "/artifact/com.github.javaparser/core/3.25.4" = false
  /\ Re.search_artifact_link "/artifact/org.example/core" = false.
Proof. repeat split; reflexivity. Qed.

Example dumps_nested :
  Json.dumps (Json.Dict [("n", Json.Int 2);
                         ("l", Json.List [Json.Str "a"; Json.Str "b"]);
                         ("e", Json.Dict [])])
  = "{" ++ LF ++ "  " ++ QUOTE ++ "n" ++ QUOTE ++ ": 2," ++ LF
    ++ "  " ++ QUOTE ++ "l" ++ QUOTE ++ ": [" ++ LF
    ++ "    " ++ QUOTE ++ "a" ++ QUOTE ++ "," ++ LF
    ++ "    " ++ QUOTE ++ "b" ++ QUOTE ++ LF
    ++ "  ]," ++ LF
    ++ "  " ++ QUOTE ++ "e" ++ QUOTE ++ ": {}" ++ LF ++ "}".
Proof. reflexivity. Qed.

(** The scenario of two artifacts sharing one version. *)
Example group_core_and_generator :
  group_by_version [("core", "3.25.4"); ("generator", "3.25.4")]
  = [("3.25.4", ["core"; "generator"])].
Proof. reflexivity. Qed.

(** Five distinct tiles and a repeated one: five identifiers, ascending. *)
Example lister_six_tiles :
  collect_artifacts Sample.six_tiles
  = ["javaparser-core"; "javaparser-parent"; "javaparser-symbol-solver-core";
     "javaparser-core"; "javaparser-core-serialization";
     "javaparser-core-generators"]
  /\ scrape_artifacts Sample.six_tiles
     = ["javaparser-core"; "javaparser-core-generators";
        "javaparser-core-serialization"; "javaparser-parent";
        "javaparser-symbol-solver-core"].
Proof. split; vm_compute; reflexivity. Qed.

(** Without tiles the links are scanned; a name is taken once. *)
Example lister_six_links :
  artifacts_from_divs Sample.six_links = []
  /\ collect_artifacts Sample.six_links = ["e"; "b"; "a"; "d"; "c"]
  /\ scrape_artifacts Sample.six_links = ["a"; "b"; "c"; "d"; "e"].
Proof. repeat split; vm_compute; reflexivity. Qed.

Lemma sample_clocks_same_second (i : nat) :
  Datetime.same_second (Sample.clock_at 5 i) (Sample.clock_at 9 i).
Proof. repeat split. Qed.

(** C2: a page on which a button tagged [release] reads 3.25.4 and the
    resolver returns 3.26.0, the text of an earlier such button. *)
Lemma release_3_25_4_not_returned :
  (exists link,
     In link (Bs4.find_all_class "a" "vbtn" Sample.two_releases)
     /\ Bs4.has_class "release" (Bs4.node_of link) = true
     /\ Bs4.text (Bs4.node_of link) = "3.25.4")
  /\ fst (get_latest_version Sample.same_get
            (Sample.same_parser Sample.two_releases) "javaparser-core" initial)
     = Returned (Some "3.26.0").
Proof.
  split.
  - exists (Sample.in_body Sample.two_releases_body
              (Sample.button ["release"] "3.25.4")).
    split; [right; left; reflexivity | split; reflexivity].
  - vm_compute. reflexivity.
Qed.

Lemma resolver_first_release_sample :
  fetch (Sample.site_get Sample.pages) (Sample.site_parser Sample.pages)
        (artifact_url "core")
  = Returned Sample.one_release
  /\ first_release_match Sample.one_release
     = Some (Sample.in_body Sample.one_release_body
               (Sample.button ["release"] (LF ++ "  3.25.4 " ++ LF)))
  /\ fst (get_latest_version (Sample.site_get Sample.pages)
            (Sample.site_parser Sample.pages) "core" initial)
     = Returned (Some "3.25.4").
Proof.
  assert (Hf : fetch (Sample.site_get Sample.pages)
                     (Sample.site_parser Sample.pages) (artifact_url "core")
               = Returned Sample.one_release) by (vm_compute; reflexivity).
  assert (Hl : first_release_match Sample.one_release
               = Some (Sample.in_body Sample.one_release_body
                         (Sample.button ["release"] (LF ++ "  3.25.4 " ++ LF))))
    by (vm_compute; reflexivity).
  exact (conj Hf (conj Hl
           (proj1 (resolver_first_release
                     (Sample.site_get Sample.pages)
                     (Sample.site_parser Sample.pages)
                     "core" Sample.one_release _ initial Hf Hl)))).
Defined.

(** C5: a page without buttons whose one [vnum] link reads
    1.0.0-SNAPSHOT-ish; the text matches the pattern and is returned. *)
Lemma snapshot_is_returned :
  Bs4.find_all_class "a" "vbtn" Sample.snapshot_only = []
  /\ map (fun e => Bs4.text (Bs4.node_of e))
         (Bs4.find_all_class "a" "vnum" Sample.snapshot_only)
     = ["1.0.0-SNAPSHOT-ish"]
  /\ Re.match_version "1.0.0-SNAPSHOT-ish" = true
  /\ fst (get_latest_version Sample.same_get
            (Sample.same_parser Sample.snapshot_only) "javaparser-core" initial)
     = Returned (Some "1.0.0-SNAPSHOT-ish").
Proof. repeat split; vm_compute; reflexivity. Qed.

Lemma resolver_vnum_only_sample :
  fetch (Sample.site_get Sample.pages) (Sample.site_parser Sample.pages)
        (artifact_url "generator")
  = Returned Sample.unversioned_only
  /\ Bs4.find_all_class "a" "vbtn" Sample.unversioned_only = []
  /\ Bs4.find_all_class "a" "vnum" Sample.unversioned_only
     = [Sample.in_body [Sample.vnum "latest"] (Sample.vnum "latest")]
  /\ fst (get_latest_version (Sample.site_get Sample.pages)
            (Sample.site_parser Sample.pages) "generator" initial)
     = Returned None.
Proof.
  assert (Hf : fetch (Sample.site_get Sample.pages)
                     (Sample.site_parser Sample.pages) (artifact_url "generator")
               = Returned Sample.unversioned_only) by (vm_compute; reflexivity).
  assert (Hb : Bs4.find_all_class "a" "vbtn" Sample.unversioned_only = [])
    by (vm_compute; reflexivity).
  assert (Hv : Bs4.find_all_class "a" "vnum" Sample.unversioned_only
               = [Sample.in_body [Sample.vnum "latest"] (Sample.vnum "latest")])
    by (vm_compute; reflexivity).
  exact (conj Hf (conj Hb (conj Hv
           (proj1 (resolver_vnum_only
                     (Sample.site_get Sample.pages)
                     (Sample.site_parser Sample.pages)
                     "generator" Sample.unversioned_only _ initial Hf Hb Hv)
                  eq_refl)))).
Defined.

(** C6: a page with a link tagged [release] on which the version is that
    of the first button, by the second strategy. *)
Lemma first_button_despite_release :
  (exists link,
     In link (Bs4.find_all_class "a" "vbtn" Sample.release_without_number)
     /\ Bs4.has_class "release" (Bs4.node_of link) = true)
  /\ scrape_version Sample.release_without_number = Some (FirstButton, "1.2.3").
Proof.
  split.
  - exists (Sample.in_body Sample.release_without_number_body
              (Sample.button ["release"] "latest")).
    split; [right; left; reflexivity | reflexivity].
  - vm_compute. reflexivity.
Qed.

(** The sample site lists two artifacts and resolves one of them. *)
Example sample_site :
  listed (Sample.site_get Sample.pages) (Sample.site_parser Sample.pages)
  = ["core"; "generator"]
  /\ version_map (Sample.site_get Sample.pages) (Sample.site_parser Sample.pages)
       ["core"; "generator"]
     = [("core", "3.25.4")].
Proof. split; vm_compute; reflexivity. Qed.

(** The count in the JSON file of the sample run is 1 although the lister
    found 2 artifacts. *)
Lemma json_count_sample :
  files_of (run (main (Sample.site_get Sample.pages)
                      (Sample.site_parser Sample.pages) (Sample.clock_at 5)))
  <> []
  /\ List.length (listed (Sample.site_get Sample.pages)
                    (Sample.site_parser Sample.pages)) = 2
  /\ exists name,
       nth_error
         (files_of (run (main (Sample.site_get Sample.pages)
                              (Sample.site_parser Sample.pages)
                              (Sample.clock_at 5)))) 0
       = Some (name,
               Json.dumps
                 (json_report (Sample.clock_at 5 2) [("core", "3.25.4")]
                    (group_by_version [("core", "3.25.4")])))
       /\ Json.member "artifacts_count"
            (json_report (Sample.clock_at 5 2) [("core", "3.25.4")]
               (group_by_version [("core", "3.25.4")]))
          = Some (Json.Int 1)
       /\ 1 = List.length
                (filter (fun a => is_some (resolved (Sample.site_get Sample.pages)
                                             (Sample.site_parser Sample.pages) a))
                        (listed (Sample.site_get Sample.pages)
                           (Sample.site_parser Sample.pages))).
Proof.
  assert (Hne : files_of (run (main (Sample.site_get Sample.pages)
                                 (Sample.site_parser Sample.pages)
                                 (Sample.clock_at 5))) <> [])
    by (vm_compute; discriminate).
  exact (conj Hne (conj eq_refl
           (json_count_is_map_size (Sample.site_get Sample.pages)
              (Sample.site_parser Sample.pages) (Sample.clock_at 5) Hne))).
Defined.

Lemma same_second_runs_sample :
  (forall i, Datetime.same_second (Sample.clock_at 5 i) (Sample.clock_at 9 i))
  /\ map fst (files_of (run (main (Sample.site_get Sample.pages)
                                  (Sample.site_parser Sample.pages)
                                  (Sample.clock_at 5))))
     = map fst (files_of (run (main (Sample.site_get Sample.pages)
                                    (Sample.site_parser Sample.pages)
                                    (Sample.clock_at 9)))).
Proof.
  exact (conj sample_clocks_same_second
           (proj1 (same_second_runs (Sample.site_get Sample.pages)
                     (Sample.site_parser Sample.pages)
                     (Sample.clock_at 5) (Sample.clock_at 9)
                     sample_clocks_same_second))).
Defined.

(** C9: two runs against the same site whose clock readings fall in the same
    second, four microseconds apart: the JSON reports differ, and so do the
    summaries. *)
Lemma same_second_files_differ :
  (forall i, Datetime.same_second (Sample.clock_at 5 i) (Sample.clock_at 9 i))
  /\ nth_error (files_of (run (main (Sample.site_get Sample.pages)
                                    (Sample.site_parser Sample.pages)
                                    (Sample.clock_at 5)))) 0
     <> nth_error (files_of (run (main (Sample.site_get Sample.pages)
                                       (Sample.site_parser Sample.pages)
                                       (Sample.clock_at 9)))) 0
  /\ nth_error (files_of (run (main (Sample.site_get Sample.pages)
                                    (Sample.site_parser Sample.pages)
                                    (Sample.clock_at 5)))) 3
     <> nth_error (files_of (run (main (Sample.site_get Sample.pages)
                                       (Sample.site_parser Sample.pages)
                                       (Sample.clock_at 9)))) 3.
Proof.
  split; [exact sample_clocks_same_second |].
  split; intros H; vm_compute in H; discriminate H.
Qed.

(** The recorded instants of the two sample runs. *)
Example sample_instants :
  Datetime.isoformat (Sample.clock_at 5 2) = "2025-03-07T09:05:01.000007"
  /\ Datetime.isoformat (Sample.clock_at 9 2) = "2025-03-07T09:05:01.000011"
  /\ Datetime.strftime_compact (Sample.clock_at 5 1) = "20250307-090501"
  /\ Datetime.strftime_compact (Sample.clock_at 9 1) = "20250307-090501".
Proof. repeat split; reflexivity. Qed.

(** The CSV file of the sample run. *)
Example sample_csv :
  nth_error (files_of (run (main (Sample.site_get Sample.pages)
                                 (Sample.site_parser Sample.pages)
                                 (Sample.clock_at 5)))) 2
  = Some ("javaparser-versions-20250307-090501.csv",
          "artifact,version" ++ LF ++ "core,3.25.4" ++ LF).
Proof. vm_compute. reflexivity. Qed.

(* ================================================================== *)
(** * Further properties of the script *)

(** ** Strings *)

Lemma append_assoc (a b c : string) : (a ++ b) ++ c = a ++ (b ++ c).
Proof. induction a as [| x a IH]; simpl; [reflexivity | rewrite IH; reflexivity]. Qed.

Lemma append_empty_r (a : string) : a ++ "" = a.
Proof. induction a as [| x a IH]; simpl; [reflexivity | rewrite IH; reflexivity]. Qed.

Lemma split_last_no_sep (sep : ascii) (s : string) :
  existsb (Ascii.eqb sep) (list_ascii_of_string (Py.split_last sep s)) = false.
Proof.
  induction s as [| c s IH]; simpl; [reflexivity |].
  destruct (existsb (Ascii.eqb sep) (list_ascii_of_string s)) eqn:E;
    [exact IH |].
  destruct (Ascii.eqb c sep) eqn:Ec; [exact E |].
  simpl. rewrite Ascii.eqb_sym, Ec, E. reflexivity.
Qed.

Lemma split_last_no_slash (s : string) : Re.no_slash (Py.split_last "/" s) = true.
Proof. unfold Re.no_slash. rewrite split_last_no_sep. reflexivity. Qed.

Lemma rstrip_head (c : ascii) (s : string) :
  Py.rstrip (String c s) = "" \/ exists r, Py.rstrip (String c s) = String c r.
Proof.
  simpl. destruct (Py.rstrip s); [destruct (Py.isspace c) |]; eauto.
Qed.

Lemma rstrip_idem (s : string) : Py.rstrip (Py.rstrip s) = Py.rstrip s.
Proof.
  induction s as [| c s IH]; [reflexivity |].
  simpl. destruct (Py.rstrip s) as [| d r] eqn:E.
  - destruct (Py.isspace c) eqn:Ec; [reflexivity |].
    simpl. rewrite Ec. reflexivity.
  - change (Py.rstrip (String c (String d r))) with
      (match Py.rstrip (String d r) with
       | "" => if Py.isspace c then "" else String c ""
       | x => String c x
       end).
    rewrite IH. reflexivity.
Qed.

Lemma lstrip_head (s : string) :
  Py.lstrip s = "" \/ exists c r, Py.lstrip s = String c r /\ Py.isspace c = false.
Proof.
  induction s as [| c s IH]; simpl; [auto |].
  destruct (Py.isspace c) eqn:E; [exact IH | eauto].
Qed.

(** [strip] removes all there is to remove. *)
Lemma strip_idem (s : string) : Py.strip (Py.strip s) = Py.strip s.
Proof.
  unfold Py.strip.
  assert (H : Py.lstrip (Py.rstrip (Py.lstrip s)) = Py.rstrip (Py.lstrip s)).
  { destruct (lstrip_head s) as [-> | (c & r & -> & Hc)]; [reflexivity |].
    destruct (rstrip_head c r) as [-> | (r' & ->)]; [reflexivity |].
    simpl. rewrite Hc. reflexivity. }
  rewrite H. apply rstrip_idem.
Qed.

(** ** The lister: what it returns and how it fails *)

Lemma fold_left_invariant {A B} (P : A -> Prop) (f : A -> B -> A) (l : list B) :
  (forall acc x, P acc -> P (f acc x)) -> forall init, P init -> P (fold_left f l init).
Proof.
  intros Hf. induction l as [| x l IH]; intros init Hi; simpl; auto.
Qed.

Lemma Forall_snoc {A} (P : A -> Prop) (l : list A) (x : A) :
  Forall P l -> P x -> Forall P (l ++ [x]).
Proof. intros Hl Hx. apply Forall_app. split; [exact Hl | repeat constructor; exact Hx]. Qed.

Lemma NoDup_snoc (l : list string) (x : string) :
  NoDup l -> existsb (String.eqb x) l = false -> NoDup (l ++ [x]).
Proof.
  intros Hn Hx.
  apply (Permutation_NoDup (l := x :: l)).
  - apply Permutation_cons_append.
  - constructor; [| exact Hn].
    intros Hin. assert (E : existsb (String.eqb x) l = true).
    { apply existsb_exists. exists x. split; [exact Hin | apply String.eqb_refl]. }
    congruence.
Qed.

Lemma truthy_nonempty (s : string) : Py.truthy s = true -> s <> "".
Proof. destruct s; [discriminate | discriminate]. Qed.

Lemma divs_names (soup : Bs4.node) :
  Forall (fun x => x <> "" /\ Re.no_slash x = true /\ Py.startswith x "?" = false)
         (artifacts_from_divs soup).
Proof.
  unfold artifacts_from_divs. apply fold_left_invariant; [| constructor].
  intros acc div Hacc.
  destruct (Bs4.find_parent "a" div) as [link |]; [| exact Hacc].
  destruct (Bs4.getitem link "href") as [href |]; [| exact Hacc].
  destruct (Py.contains _ href); [| exact Hacc].
  destruct (Py.truthy (Py.split_last "/" href)) eqn:Et; [| exact Hacc].
  destruct (Py.startswith (Py.split_last "/" href) "?") eqn:Es; [exact Hacc |].
  simpl. apply Forall_snoc; [exact Hacc |].
  split; [apply truthy_nonempty, Et |]. split; [apply split_last_no_slash | exact Es].
Qed.

Lemma links_names (soup : Bs4.node) (artifacts : list string) :
  Forall (fun x => x <> "" /\ Re.no_slash x = true) artifacts ->
  Forall (fun x => x <> "" /\ Re.no_slash x = true)
         (artifacts_from_links soup artifacts).
Proof.
  unfold artifacts_from_links. apply fold_left_invariant.
  intros acc link Hacc.
  destruct (Bs4.getitem (Bs4.node_of link) "href") as [href |]; [| exact Hacc].
  destruct (Py.truthy (Py.split_last "/" href)) eqn:Et; [| exact Hacc].
  destruct (existsb _ acc); [exact Hacc |].
  simpl. apply Forall_snoc; [exact Hacc |].
  split; [apply truthy_nonempty, Et | apply split_last_no_slash].
Qed.

Lemma links_NoDup (soup : Bs4.node) (artifacts : list string) :
  NoDup artifacts -> NoDup (artifacts_from_links soup artifacts).
Proof.
  unfold artifacts_from_links. apply fold_left_invariant.
  intros acc link Hacc.
  destruct (Bs4.getitem (Bs4.node_of link) "href") as [href |]; [| exact Hacc].
  destruct (Py.truthy (Py.split_last "/" href)); [| exact Hacc].
  destruct (existsb _ acc) eqn:E; [exact Hacc |].
  simpl. apply NoDup_snoc; assumption.
Qed.

Lemma collect_names (soup : Bs4.node) :
  Forall (fun x => x <> "" /\ Re.no_slash x = true) (collect_artifacts soup).
Proof.
  unfold collect_artifacts.
  destruct (artifacts_from_divs soup) as [| a l] eqn:E.
  - apply links_names. constructor.
  - rewrite <- E. eapply Forall_impl; [| apply divs_names].
    intros x (H1 & H2 & _). auto.
Qed.

Section ListerMore.
Variable requests_get : string -> outcome Response.
Variable html_parser : string -> outcome Bs4.node.


(** X2.  Every identifier the lister returns is non-empty and contains no
    slash, so the address built from it stays one level below the namespace;
    those taken from the tiles (lines 30-40) do not start with a question
    mark either. *)
Theorem listed_names_wellformed :
  Forall (fun x => x <> "" /\ Re.no_slash x = true)
         (listed requests_get html_parser)
  /\ forall soup,
       Forall (fun x => Py.startswith x "?" = false) (artifacts_from_divs soup).
Proof.
  split.
  - unfold listed.
    destruct (fetch requests_get html_parser namespace_url) as [soup |];
      [| constructor].
    unfold scrape_artifacts. apply Forall_forall. intros x Hx.
    apply (proj1 (sorted_set_In _ _)) in Hx.
    exact (proj1 (Forall_forall _ _) (collect_names soup) x Hx).
  - intros soup. eapply Forall_impl; [| apply divs_names].
    intros x (_ & _ & H). exact H.
Qed.
End ListerMore.

(** X3.  The scan of the links (lines 44-48) records no name twice, so when
    the tiles give nothing the collected list is already free of duplicates;
    the scan is not consulted at all when the tiles give a name. *)
Theorem fallback_no_duplicates (soup : Bs4.node) :
  NoDup (artifacts_from_links soup [])
  /\ (artifacts_from_divs soup = [] -> NoDup (collect_artifacts soup))
  /\ (artifacts_from_divs soup <> [] ->
      collect_artifacts soup = artifacts_from_divs soup).
Proof.
  split; [apply links_NoDup; constructor |]. unfold collect_artifacts. split.
  - intros ->. apply links_NoDup. constructor.
  - destruct (artifacts_from_divs soup); [congruence | reflexivity].
Qed.

(** ** The resolver: what a version looks like *)

Lemma release_loop_version_of (links : list Bs4.element) (v : string) :
  release_loop links = Some v -> exists n, version_of n = Some v.
Proof.
  induction links as [| link rest IH]; simpl; [discriminate |].
  destruct (Bs4.has_class "release" (Bs4.node_of link)); [| exact IH].
  destruct (version_of (Bs4.node_of link)) as [w |] eqn:E; [| exact IH].
  intros [= <-]. eauto.
Qed.

Lemma scrape_version_version_of (soup : Bs4.node) (s : strategy) (v : string) :
  scrape_version soup = Some (s, v) -> exists n, version_of n = Some v.
Proof.
  unfold scrape_version, first_button, version_number.
  destruct (release_loop _) as [v1 |] eqn:E1.
  - intros [= _ <-]. eapply release_loop_version_of, E1.
  - destruct (Bs4.find_all_class "a" "vbtn" soup) as [| link rest].
    + destruct (Bs4.find_class "a" "vnum" soup) as [e |]; [| discriminate].
      destruct (version_of (Bs4.node_of e)) as [v3 |] eqn:E3; [| discriminate].
      intros [= _ <-]. eauto.
    + destruct (version_of (Bs4.node_of link)) as [v2 |] eqn:E2.
      * intros [= _ <-]. eauto.
      * destruct (Bs4.find_class "a" "vnum" soup) as [e |]; [| discriminate].
        destruct (version_of (Bs4.node_of e)) as [v3 |] eqn:E3; [| discriminate].
        intros [= _ <-]. eauto.
Qed.

Lemma version_of_wellformed (n : Bs4.node) (v : string) :
  version_of n = Some v ->
  v <> "" /\ Re.match_version v = true /\ Py.strip v = v.
Proof.
  rewrite version_of_match.
  destruct (Re.match_version (Py.strip (Bs4.text n))) eqn:E; [| discriminate].
  intros [= <-]. split; [| split].
  - apply truthy_nonempty, match_version_truthy, E.
  - exact E.
  - apply strip_idem.
Qed.

Section ResolverMore.
Variable requests_get : string -> outcome Response.
Variable html_parser : string -> outcome Bs4.node.

(** X4.  Whatever strategy produced it, a version returned by
    [get_latest_version] is non-empty, starts with digits.digits.digits and
    carries no white space at either end. *)
Theorem resolved_version_wellformed (artifact_id v : string) (st : state) :
  fst (get_latest_version requests_get html_parser artifact_id st)
  = Returned (Some v) ->
  v <> "" /\ Re.match_version v = true /\ Py.strip v = v.
Proof.
  rewrite latest_version_value. intros [= H]. unfold resolved in H.
  destruct (fetch requests_get html_parser (artifact_url artifact_id)) as [soup |];
    [| discriminate].
  destruct (scrape_version soup) as [[s w] |] eqn:E; [| discriminate].
  injection H as <-.
  destruct (scrape_version_version_of soup s w E) as (n & Hn).
  exact (version_of_wellformed n w Hn).
Qed.

(** X5.  A call of [get_latest_version] asks for exactly one page, the
    detail page of its artifact, and does nothing else to the world: no
    print, no pause, no file, no reading of the clock, whether the fetch
    succeeds or not. *)
Theorem resolver_one_request (artifact_id : string) (st : state) :
  snd (get_latest_version requests_get html_parser artifact_id st)
  = {| clock_reads := clock_reads st;
       trace := trace st ++ [Fetched (artifact_url artifact_id)] |}.
Proof.
  rewrite (latest_version_returns requests_get html_parser (clock_reads st)
             artifact_id st eq_refl).
  reflexivity.
Qed.
End ResolverMore.

Lemma resolved_version_wellformed_sample :
  fst (get_latest_version (Sample.site_get Sample.pages)
         (Sample.site_parser Sample.pages) "core" initial)
  = Returned (Some "3.25.4")
  /\ "3.25.4" <> "" /\ Re.match_version "3.25.4" = true
  /\ Py.strip "3.25.4" = "3.25.4".
Proof.
  assert (H : fst (get_latest_version (Sample.site_get Sample.pages)
                     (Sample.site_parser Sample.pages) "core" initial)
              = Returned (Some "3.25.4")) by (vm_compute; reflexivity).
  exact (conj H (resolved_version_wellformed (Sample.site_get Sample.pages)
                   (Sample.site_parser Sample.pages) "core" "3.25.4" initial H)).
Defined.

(** ** The version map is filled in ascending order *)

Lemma keys_setitem_new {V} (d : Py.dict V) (k : string) (v : V) :
  Py.get d k = None -> Py.keys (Py.setitem d k v) = (Py.keys d ++ [k])%list.
Proof.
  unfold Py.keys. induction d as [| [k0 v0] d IH]; simpl; [reflexivity |].
  destruct (String.eqb k0 k); [discriminate |].
  intros H. simpl. rewrite (IH H). reflexivity.
Qed.

Lemma StronglySorted_filter {A} (R : A -> A -> Prop) (f : A -> bool) (l : list A) :
  StronglySorted R l -> StronglySorted R (filter f l).
Proof.
  induction 1 as [| a l Hs IH Ha]; simpl; [constructor |].
  destruct (f a); [| exact IH].
  constructor; [exact IH |].
  rewrite Forall_forall in *. intros x Hx. apply filter_In in Hx. apply Ha, Hx.
Qed.

Lemma StronglySorted_map_inv {A B} (R : B -> B -> Prop) (f : A -> B) (l : list A) :
  StronglySorted R (map f l) -> StronglySorted (fun a b => R (f a) (f b)) l.
Proof.
  induction l as [| a l IH]; simpl; intros H; [constructor |].
  inversion H as [| ? ? Hs Ha]; subst. constructor; [apply IH, Hs |].
  rewrite Forall_forall in *. intros x Hx. apply Ha, in_map, Hx.
Qed.

(** Sorting what is in order changes nothing. *)
Lemma sorted_of_sorted {A} (le : A -> A -> bool) (l : list A) :
  StronglySorted (fun a b => le a b = true) l -> Py.sorted le l = l.
Proof.
  induction 1 as [| a l Hs IH Ha]; simpl; [reflexivity |].
  rewrite IH. destruct l as [| b l]; [reflexivity |].
  simpl. inversion Ha as [| ? ? Hb _]; subst. rewrite Hb. reflexivity.
Qed.

Lemma str_lt_pair_le (p q : string * string) :
  Py.str_lt (fst p) (fst q) -> Py.pair_le p q = true.
Proof. unfold Py.str_lt, Py.pair_le. intros ->. reflexivity. Qed.

Section VersionMapOrder.
Variable requests_get : string -> outcome Response.
Variable html_parser : string -> outcome Bs4.node.

Local Abbreviation the_listed := (listed requests_get html_parser).
Local Abbreviation the_resolved := (resolved requests_get html_parser).
Local Abbreviation the_step := (version_step requests_get html_parser).
Local Abbreviation the_versions :=
  (version_map requests_get html_parser (listed requests_get html_parser)).

Lemma version_fold_keys (l : list string) (acc : Py.dict string) :
  NoDup l -> (forall a, In a l -> Py.get acc a = None) ->
  Py.keys (fold_left the_step l acc)
  = (Py.keys acc ++ filter (fun a => is_some (the_resolved a)) l)%list.
Proof.
  revert acc. induction l as [| x l IH]; intros acc Hn Hacc; simpl.
  - rewrite app_nil_r. reflexivity.
  - inversion Hn as [| ? ? Hx Hn']; subst.
    rewrite IH; [| assumption |].
    + rewrite version_step_set.
      destruct (the_resolved x) as [v |]; simpl; [| reflexivity].
      rewrite keys_setitem_new by (apply Hacc; simpl; auto).
      rewrite <- app_assoc. reflexivity.
    + intros a Ha. rewrite version_step_set.
      destruct (the_resolved x) as [v |]; [| apply Hacc; simpl; auto].
      rewrite get_setitem. destruct (String.eqb_spec x a) as [<- | _];
        [contradiction | apply Hacc; simpl; auto].
Qed.

(** X6.  The version map of a run holds the listed artifacts that resolved,
    in the order of the listing: its keys are strictly ascending, so the
    [sorted(versions.items())] of lines 163 and 198 leaves the items as they
    are, and the JSON report shows them in that same order. *)
Theorem version_map_in_order :
  Py.keys the_versions = filter (fun a => is_some (the_resolved a)) the_listed
  /\ StronglySorted Py.str_lt (Py.keys the_versions)
  /\ Py.sorted Py.pair_le (Py.items the_versions) = Py.items the_versions.
Proof.
  assert (Hk : Py.keys the_versions
               = filter (fun a => is_some (the_resolved a)) the_listed).
  { unfold version_map. rewrite version_fold_keys; [reflexivity | |].
    - apply strict_NoDup, listed_strict.
    - reflexivity. }
  assert (Hs : StronglySorted Py.str_lt (Py.keys the_versions)).
  { rewrite Hk. apply StronglySorted_filter, listed_strict. }
  split; [exact Hk |]. split; [exact Hs |].
  apply sorted_of_sorted.
  apply (StronglySorted_weaken (fun p q => Py.str_lt (fst p) (fst q))).
  - intros p q. apply str_lt_pair_le.
  - apply StronglySorted_map_inv. exact Hs.
Qed.
End VersionMapOrder.

(** ** Requests and pauses of a run *)

Lemma sleeps_of_app (s t : list event) :
  sleeps_of (s ++ t) = sleeps_of s + sleeps_of t.
Proof. unfold sleeps_of. rewrite filter_app, length_app. reflexivity. Qed.

Lemma artifact_url_injective (a b : string) :
  artifact_url a = artifact_url b -> a = b.
Proof. unfold artifact_url. simpl. intros H. injection H. auto. Qed.

Lemma artifact_url_not_index (a : string) : artifact_url a <> namespace_url.
Proof. unfold artifact_url, namespace_url. simpl. intros H. discriminate H. Qed.

Section Pacing.
Variable requests_get : string -> outcome Response.
Variable html_parser : string -> outcome Bs4.node.

Local Abbreviation the_listed := (listed requests_get html_parser).
Local Abbreviation the_main := (main requests_get html_parser).

Lemma checks_sleeps (n : nat) (l : list (nat * string)) :
  sleeps_of (flat_map (check_events requests_get html_parser n) l) = List.length l.
Proof.
  induction l as [| ia l IH]; [reflexivity |].
  cbn [flat_map]. rewrite sleeps_of_app, IH. reflexivity.
Qed.

Lemma groups_sleeps (g : Py.dict (list string)) : sleeps_of (group_events g) = 0.
Proof.
  unfold group_events.
  induction (Py.sorted Py.str_ge (Py.keys g)) as [| v l IH]; [reflexivity |].
  cbn [flat_map]. rewrite sleeps_of_app, IH.
  assert (H : forall m : list string,
             sleeps_of (flat_map (fun a => [Printed (Member a)]) m ++ [Printed Blank]) = 0).
  { induction m as [| a m IHm]; [reflexivity | exact IHm]. }
  change (sleeps_of (Printed (VersionLine v (List.length (members_of g v)))
                     :: flat_map (fun a => [Printed (Member a)])
                          (Py.sorted Py.str_le (members_of g v)) ++ [Printed Blank])
          + 0 = 0).
  rewrite Nat.add_0_r. apply (H (Py.sorted Py.str_le (members_of g v))).
Qed.

(** X7.  A run asks for the index page and then for the detail page of each
    listed artifact, in the order of the listing and no page twice, and it
    pauses exactly once per listed artifact. *)
Theorem requests_and_pauses clock :
  gets_of (run (the_main clock)) = namespace_url :: map artifact_url the_listed
  /\ NoDup (gets_of (run (the_main clock)))
  /\ sleeps_of (run (the_main clock)) = List.length the_listed.
Proof.
  split; [apply main_gets |]. split.
  - rewrite main_gets. constructor.
    + intros Hin. apply in_map_iff in Hin. destruct Hin as (a & Ha & _).
      exact (artifact_url_not_index a Ha).
    + apply Finite.Injective_map_NoDup.
      * intros a b. apply artifact_url_injective.
      * apply strict_NoDup, listed_strict.
  - rewrite main_run. unfold main_events.
    rewrite !sleeps_of_app.
    assert (Hl : sleeps_of (listing_events requests_get html_parser) = 0).
    { unfold listing_events.
      destruct (fetch requests_get html_parser namespace_url); reflexivity. }
    rewrite Hl.
    destruct the_listed as [| a l] eqn:El; [reflexivity |].
    rewrite !sleeps_of_app, checks_sleeps.
    assert (Hlen : List.length (enumerate1 (a :: l)) = List.length (a :: l)).
    { rewrite <- (enumerate1_snd (a :: l)) at 2. rewrite length_map. reflexivity. }
    rewrite Hlen.
    destruct (version_map requests_get html_parser (a :: l)) as [| p vs].
    + unfold sleeps_of. simpl. lia.
    + unfold report_events. rewrite !sleeps_of_app, groups_sleeps.
      unfold sleeps_of. simpl. lia.
Qed.
End Pacing.

(** ** The groups partition the version map *)

Lemma total_setitem (d : Py.dict (list string)) (k : string) (v : list string) :
  total_members (Py.setitem d k v) + List.length (members_of d k)
  = total_members d + List.length v.
Proof.
  unfold total_members, members_of.
  induction d as [| [k0 v0] d IH]; simpl; [lia |].
  destruct (String.eqb k0 k); simpl; lia.
Qed.

Lemma total_group_step (g : Py.dict (list string)) (av : string * string) :
  total_members (group_step g av) = S (total_members g).
Proof.
  destruct av as [a ver]. unfold group_step, Py.mem; simpl.
  destruct (Py.get g ver) as [m |] eqn:E; simpl.
  - rewrite E. pose proof (total_setitem g ver (m ++ [a])) as H.
    unfold members_of in H. rewrite E, length_app in H. simpl in H. lia.
  - rewrite (get_setitem g ver [] ver), String.eqb_refl.
    pose proof (total_setitem g ver []) as H1.
    pose proof (total_setitem (Py.setitem g ver []) ver ([] ++ [a])) as H2.
    unfold members_of in H1, H2.
    rewrite E in H1. rewrite (get_setitem g ver [] ver), String.eqb_refl in H2.
    simpl in H1, H2. simpl. lia.
Qed.

Lemma group_step_NoDup (g : Py.dict (list string)) (av : string * string) :
  NoDup (Py.keys g) -> NoDup (Py.keys (group_step g av)).
Proof.
  intros Hn. unfold group_step.
  destruct (negb (Py.mem g (snd av))).
  - destruct (Py.get (Py.setitem g (snd av) []) (snd av));
      repeat apply setitem_NoDup; assumption.
  - destruct (Py.get g (snd av)); [apply setitem_NoDup |]; assumption.
Qed.

Lemma group_step_nonempty (g : Py.dict (list string)) (av : string * string) :
  (forall v m, Py.get g v = Some m -> m <> []) ->
  forall v m, Py.get (group_step g av) v = Some m -> m <> [].
Proof.
  intros Hg v m. destruct av as [a ver]. rewrite get_group_step.
  destruct (String.eqb ver v); [| apply Hg].
  intros [= <-]. destruct (members_of g ver); discriminate.
Qed.

Lemma length_le_total (g : Py.dict (list string)) :
  Forall (fun vm => snd vm <> []) g -> List.length g <= total_members g.
Proof.
  unfold total_members. induction 1 as [| [v m] g Hm Hg IH]; simpl; [lia |].
  destruct m; [contradiction | simpl; lia].
Qed.

Lemma group_keys_NoDup (versions : Py.dict string) :
  NoDup (Py.keys (group_by_version versions)).
Proof.
  unfold group_by_version. apply fold_left_invariant.
  - intros acc x. apply group_step_NoDup.
  - constructor.
Qed.

(** X8.  The groups built from a version map have distinct keys, none of
    them is empty, together they hold as many artifacts as the map has
    entries, a version is a key exactly when some entry carries it, and so
    there are at most as many groups as entries and at least one when the
    map is not empty. *)
Theorem groups_partition (versions : Py.dict string) :
  NoDup (Py.keys (group_by_version versions))
  /\ (forall v m, Py.get (group_by_version versions) v = Some m -> m <> [])
  /\ total_members (group_by_version versions) = List.length versions
  /\ (forall v, In v (Py.keys (group_by_version versions)) <->
                exists k, In (k, v) versions)
  /\ List.length (group_by_version versions) <= List.length versions
  /\ (versions <> [] -> group_by_version versions <> []).
Proof.
  pose proof (group_keys_NoDup versions) as Hn.
  assert (He : forall v m, Py.get (group_by_version versions) v = Some m -> m <> []).
  { unfold group_by_version.
    apply (fold_left_invariant
             (fun g => forall v m, Py.get g v = Some m -> m <> [])).
    - intros acc x. apply group_step_nonempty.
    - intros v m; discriminate. }
  assert (Ht : total_members (group_by_version versions) = List.length versions).
  { unfold group_by_version, Py.items.
    assert (H : forall l g, total_members (fold_left group_step l g)
                            = total_members g + List.length l).
    { induction l as [| x l IH]; intros g; simpl; [lia |].
      rewrite IH, total_group_step. lia. }
    rewrite H. reflexivity. }
  assert (Hle : List.length (group_by_version versions) <= List.length versions).
  { rewrite <- Ht. apply length_le_total. apply Forall_forall.
    intros [v m] Hin. simpl. apply (He v). apply get_In; assumption. }
  repeat split; try assumption.
  - intros Hin.
    destruct (Py.get (group_by_version versions) v) as [m |] eqn:E.
    + destruct m as [| k m]; [exfalso; exact (He v [] E eq_refl) |].
      exists k. apply group_by_version_grouped. exists (k :: m). simpl; auto.
    + apply get_None in E. contradiction.
  - intros (k & Hk). apply group_by_version_grouped in Hk.
    destruct Hk as (m & Hm & _).
    destruct (in_dec string_dec v (Py.keys (group_by_version versions)))
      as [Hin | Hout]; [exact Hin |].
    apply get_None in Hout. congruence.
  - intros Hne E. rewrite E in Ht. simpl in Ht.
    destruct versions; [congruence | discriminate].
Qed.

(** ** Runs that fail at the index page, and the reports of those that do not *)

Lemma texts_of_app (s t : list event) : texts_of (s ++ t) = (texts_of s ++ texts_of t)%list.
Proof. apply flat_map_app. Qed.

Lemma version_lines_of_app (s t : list event) :
  version_lines_of (s ++ t) = (version_lines_of s ++ version_lines_of t)%list.
Proof. apply flat_map_app. Qed.

Lemma descending_strict (l : list string) :
  StronglySorted (fun a b => Py.str_ge a b = true) l -> NoDup l ->
  StronglySorted (fun a b => Py.str_lt b a) l.
Proof.
  induction 1 as [| a l Hs IH Ha]; intros Hn; constructor;
    inversion Hn as [| ? ? Hnotin Hn']; subst; auto.
  rewrite Forall_forall in *. intros b Hb.
  destruct (proj1 (str_le_iff b a) (Ha b Hb)) as [H | ->];
    [assumption | contradiction].
Qed.

Section RunsMore.
Variable requests_get : string -> outcome Response.
Variable html_parser : string -> outcome Bs4.node.

Local Abbreviation the_listed := (listed requests_get html_parser).
Local Abbreviation the_resolved := (resolved requests_get html_parser).
Local Abbreviation the_versions :=
  (version_map requests_get html_parser (listed requests_get html_parser)).
Local Abbreviation the_main := (main requests_get html_parser).

Lemma main_failed_listing clock (e : exn) :
  fetch requests_get html_parser namespace_url = Raised e ->
  run (the_main clock)
  = [Printed Banner; Printed Rule; Printed Blank; Printed Fetching;
     Fetched namespace_url; Printed (ErrorFetching e); Printed NoArtifacts].
Proof.
  intros He. rewrite main_run. unfold main_events, listing_events, listed.
  rewrite He. reflexivity.
Qed.

(** X10.  When the index page cannot be had (the request raises, the status
    is 4xx or 5xx, or the parser rejects the markup), the whole run is: the
    banner, the one request, the error message and the no-artifacts message.
    No detail page is asked for, no pause is made and nothing is written. *)
Theorem index_failure_run clock :
  (forall e, requests_get namespace_url = Raised e ->
     run (the_main clock)
     = [Printed Banner; Printed Rule; Printed Blank; Printed Fetching;
        Fetched namespace_url; Printed (ErrorFetching e); Printed NoArtifacts])
  /\ (forall r, requests_get namespace_url = Returned r ->
        (400 <= status_code r < 600)%nat ->
        run (the_main clock)
        = [Printed Banner; Printed Rule; Printed Blank; Printed Fetching;
           Fetched namespace_url;
           Printed (ErrorFetching (HTTPError (status_code r)));
           Printed NoArtifacts])
  /\ (forall r e, requests_get namespace_url = Returned r ->
        (status_code r < 400 \/ 600 <= status_code r)%nat ->
        html_parser (body r) = Raised e ->
        run (the_main clock)
        = [Printed Banner; Printed Rule; Printed Blank; Printed Fetching;
           Fetched namespace_url; Printed (ErrorFetching e); Printed NoArtifacts]).
Proof.
  repeat split.
  - intros e He. apply main_failed_listing. unfold fetch. rewrite He. reflexivity.
  - intros r Hr [H1 H2]. apply main_failed_listing. unfold fetch. rewrite Hr.
    apply Nat.leb_le in H1. apply Nat.ltb_lt in H2. rewrite H1, H2. reflexivity.
  - intros r e Hr Hs Hp. apply main_failed_listing. unfold fetch. rewrite Hr.
    assert (E : ((400 <=? status_code r) && (status_code r <? 600))%nat = false).
    { apply andb_false_iff. destruct Hs as [H | H].
      - left. apply Nat.leb_gt. exact H.
      - right. apply Nat.ltb_ge. exact H. }
    rewrite E. exact Hp.
Qed.

(** X11.  A run whose version map is not empty writes exactly four files, in
    this order: the JSON report, the XML manifest, the CSV table and the
    summary, all named with the one timestamp read at line 175. *)
Theorem four_files_one_timestamp clock :
  the_versions <> [] ->
  map fst (files_of (run (the_main clock)))
  = [ "javaparser-all-versions-" ++ Datetime.strftime_compact (clock 1) ++ ".json";
      "javaparser-all-dependencies-" ++ Datetime.strftime_compact (clock 1) ++ ".xml";
      "javaparser-versions-" ++ Datetime.strftime_compact (clock 1) ++ ".csv";
      "javaparser-summary-" ++ Datetime.strftime_compact (clock 1) ++ ".txt" ].
Proof.
  intros Hne. rewrite main_files.
  destruct the_versions; [congruence | reflexivity].
Qed.

Lemma listing_quiet :
  texts_of (listing_events requests_get html_parser) = []
  /\ version_lines_of (listing_events requests_get html_parser) = [].
Proof.
  unfold listing_events.
  destruct (fetch requests_get html_parser namespace_url); split; reflexivity.
Qed.

Lemma checks_quiet (n : nat) (l : list (nat * string)) :
  texts_of (flat_map (check_events requests_get html_parser n) l) = []
  /\ version_lines_of (flat_map (check_events requests_get html_parser n) l) = [].
Proof.
  induction l as [| ia l [IH1 IH2]]; [split; reflexivity |].
  cbn [flat_map]. rewrite texts_of_app, version_lines_of_app, IH1, IH2.
  unfold check_events.
  destruct (the_resolved (snd ia)) as [v |]; [destruct (Py.truthy v) |];
    split; reflexivity.
Qed.

Lemma groups_lines (g : Py.dict (list string)) :
  texts_of (group_events g) = []
  /\ version_lines_of (group_events g) = Py.sorted Py.str_ge (Py.keys g).
Proof.
  unfold group_events.
  induction (Py.sorted Py.str_ge (Py.keys g)) as [| v l [IH1 IH2]];
    [split; reflexivity |].
  cbn [flat_map]. rewrite texts_of_app, version_lines_of_app, IH1, IH2.
  assert (H : forall m : list string,
             texts_of (flat_map (fun a => [Printed (Member a)]) m ++ [Printed Blank]) = []
             /\ version_lines_of
                  (flat_map (fun a => [Printed (Member a)]) m ++ [Printed Blank]) = []).
  { induction m as [| a m IHm]; [split; reflexivity | exact IHm]. }
  destruct (H (Py.sorted Py.str_le (members_of g v))) as [H1 H2].
  split.
  - rewrite app_nil_r. exact H1.
  - change (v :: version_lines_of
                   (flat_map (fun a => [Printed (Member a)])
                      (Py.sorted Py.str_le (members_of g v)) ++ [Printed Blank])
             ++ l = v :: l)%list.
    rewrite H2. reflexivity.
Qed.

(** X12.  In a run whose version map is not empty the one text printed by
    line 172 is the manifest, and the second file written holds exactly that
    text. *)
Theorem manifest_printed_is_written clock :
  the_versions <> [] ->
  texts_of (run (the_main clock)) = [xml_of (clock 0) the_versions]
  /\ option_map snd (nth_error (files_of (run (the_main clock))) 1)
     = Some (xml_of (clock 0) the_versions).
Proof.
  intros Hne. split.
  - rewrite main_run. unfold main_events.
    rewrite !texts_of_app, (proj1 listing_quiet).
    destruct the_listed as [| a l] eqn:El.
    + exfalso. apply Hne. reflexivity.
    + rewrite !texts_of_app, (proj1 (checks_quiet _ _)).
      destruct (version_map requests_get html_parser (a :: l)) as [| p vs] eqn:Ev;
        [congruence |].
      unfold report_events. rewrite !texts_of_app, (proj1 (groups_lines _)).
      reflexivity.
  - rewrite main_files. destruct the_versions; [congruence | reflexivity].
Qed.

(** X13.  A run that reports ends by printing how many artifacts it checked
    and how many it found with a version: the number listed and the number
    of entries of the version map, the second at least one and at most the
    first. *)
Theorem complete_message_counts clock :
  the_versions <> [] ->
  (exists earlier,
     prints_of (run (the_main clock))
     = (earlier ++ [Complete (List.length the_listed) (List.length the_versions)])%list)
  /\ 1 <= List.length the_versions <= List.length the_listed.
Proof.
  intros Hne. split.
  - rewrite main_run. unfold main_events.
    destruct the_listed as [| a l] eqn:El.
    + exfalso. apply Hne. reflexivity.
    + destruct (version_map requests_get html_parser (a :: l)) as [| p vs] eqn:Ev;
        [congruence |].
      unfold report_events. rewrite !prints_of_app.
      match goal with
      | |- context [prints_of (Printed BlankRule :: ?rest)] =>
          change (prints_of (Printed BlankRule :: rest))
            with ([BlankRule; XmlTitle; Rule;
                   Text (xml_of (clock 0) (p :: vs));
                   JsonSaved (fst (nth 0 (reports clock 0 (p :: vs)) ("", "")));
                   XmlSaved (fst (nth 1 (reports clock 0 (p :: vs)) ("", "")));
                   CsvSaved (fst (nth 2 (reports clock 0 (p :: vs)) ("", "")));
                   SummarySaved (fst (nth 3 (reports clock 0 (p :: vs)) ("", "")))]
                  ++ [Complete (List.length (a :: l)) (List.length (p :: vs))])%list
      end.
      rewrite !app_assoc. eexists. reflexivity.
  - split.
    + destruct the_versions; [congruence | simpl; lia].
    + rewrite version_map_length. apply filter_length_le.
Qed.

(** X14.  The versions announced in the console summary are the keys of the
    groups, each once, in strictly descending order of their text. *)
Theorem version_lines_descending clock :
  StronglySorted (fun a b => Py.str_lt b a)
                 (version_lines_of (run (the_main clock)))
  /\ (the_versions <> [] ->
      version_lines_of (run (the_main clock))
      = Py.sorted Py.str_ge (Py.keys (group_by_version the_versions))).
Proof.
  assert (H : version_lines_of (run (the_main clock))
              = match the_versions with
                | [] => []
                | _ => Py.sorted Py.str_ge (Py.keys (group_by_version the_versions))
                end).
  { rewrite main_run. unfold main_events.
    rewrite !version_lines_of_app, (proj2 listing_quiet).
    destruct the_listed as [| a l] eqn:El; [reflexivity |].
    rewrite !version_lines_of_app, (proj2 (checks_quiet _ _)).
    destruct (version_map requests_get html_parser (a :: l)) as [| p vs] eqn:Ev;
      [reflexivity |].
    unfold report_events. rewrite !version_lines_of_app, (proj2 (groups_lines _)).
    simpl. rewrite app_nil_r. reflexivity. }
  split.
  - rewrite H. destruct the_versions as [| p vs]; [constructor |].
    apply descending_strict.
    + apply sorted_sorted; [apply str_ge_total | apply str_ge_trans].
    + eapply Permutation_NoDup; [apply Permutation_sym, sorted_perm |].
      apply group_keys_NoDup.
  - intros Hne. rewrite H. destruct the_versions; [congruence | reflexivity].
Qed.
End RunsMore.

Section FailedArtifacts.
Variable requests_get : string -> outcome Response.
Variable html_parser : string -> outcome Bs4.node.

(** X15.  The loop of lines 113-124 keeps going when an artifact fails: the
    map it returns has an entry for an artifact exactly when the artifact is
    among those checked and the resolver returns a version for it, and the
    entry is that version, whatever happened to the other artifacts. *)
Theorem failed_artifact_left_out (artifacts : list string) (st : state) :
  exists versions st',
    check_artifacts requests_get html_parser artifacts st
    = (Returned versions, st')
    /\ forall a v,
         Py.get versions a = Some v <->
         In a artifacts
         /\ forall st0,
              fst (get_latest_version requests_get html_parser a st0)
              = Returned (Some v).
Proof.
  eexists _, _. split.
  - exact (check_artifacts_returns requests_get html_parser (clock_reads st)
             artifacts st eq_refl).
  - intros a v. rewrite version_map_get. split.
    + intros [Hin Hr]. split; [exact Hin |]. intros st0.
      rewrite latest_version_value, Hr. reflexivity.
    + intros [Hin Hr]. split; [exact Hin |].
      specialize (Hr initial). rewrite latest_version_value in Hr.
      congruence.
Qed.
End FailedArtifacts.

(** Versions are compared as text: 3.9.0 comes before 3.10.0 in the
    descending order of the summary. *)
Example version_order_is_textual :
  Py.sorted Py.str_ge ["3.10.0"; "3.9.0"; "3.25.4"] = ["3.9.0"; "3.25.4"; "3.10.0"].
Proof. reflexivity. Qed.

(** A site that answers 404 everywhere. *)
Example run_against_404 :
  run (main (Sample.site_get []) (Sample.site_parser []) (Sample.clock_at 5))
  = [Printed Banner; Printed Rule; Printed Blank; Printed Fetching;
     Fetched namespace_url; Printed (ErrorFetching (HTTPError 404));
     Printed NoArtifacts].
Proof. vm_compute. reflexivity. Qed.

Lemma sample_versions_nonempty :
  version_map (Sample.site_get Sample.pages) (Sample.site_parser Sample.pages)
    (listed (Sample.site_get Sample.pages) (Sample.site_parser Sample.pages))
  <> [].
Proof. vm_compute. discriminate. Qed.

Lemma four_files_one_timestamp_sample :
  version_map (Sample.site_get Sample.pages) (Sample.site_parser Sample.pages)
    (listed (Sample.site_get Sample.pages) (Sample.site_parser Sample.pages))
  <> []
  /\ map fst (files_of (run (main (Sample.site_get Sample.pages)
                                  (Sample.site_parser Sample.pages)
                                  (Sample.clock_at 5))))
     = [ "javaparser-all-versions-20250307-090501.json";
         "javaparser-all-dependencies-20250307-090501.xml";
         "javaparser-versions-20250307-090501.csv";
         "javaparser-summary-20250307-090501.txt" ].
Proof.
  exact (conj sample_versions_nonempty
           (four_files_one_timestamp (Sample.site_get Sample.pages)
              (Sample.site_parser Sample.pages) (Sample.clock_at 5)
              sample_versions_nonempty)).
Defined.

Lemma manifest_printed_is_written_sample :
  version_map (Sample.site_get Sample.pages) (Sample.site_parser Sample.pages)
    (listed (Sample.site_get Sample.pages) (Sample.site_parser Sample.pages))
  <> []
  /\ texts_of (run (main (Sample.site_get Sample.pages)
                         (Sample.site_parser Sample.pages) (Sample.clock_at 5)))
     = [xml_of (Sample.clock_at 5 0) [("core", "3.25.4")]].
Proof.
  exact (conj sample_versions_nonempty
           (proj1 (manifest_printed_is_written (Sample.site_get Sample.pages)
                     (Sample.site_parser Sample.pages) (Sample.clock_at 5)
                     sample_versions_nonempty))).
Defined.

Lemma complete_message_counts_sample :
  version_map (Sample.site_get Sample.pages) (Sample.site_parser Sample.pages)
    (listed (Sample.site_get Sample.pages) (Sample.site_parser Sample.pages))
  <> []
  /\ 1 <= List.length
            (version_map (Sample.site_get Sample.pages)
               (Sample.site_parser Sample.pages)
               (listed (Sample.site_get Sample.pages)
                  (Sample.site_parser Sample.pages)))
       <= List.length (listed (Sample.site_get Sample.pages)
                         (Sample.site_parser Sample.pages)).
Proof.
  exact (conj sample_versions_nonempty
           (proj2 (complete_message_counts (Sample.site_get Sample.pages)
                     (Sample.site_parser Sample.pages) (Sample.clock_at 5)
                     sample_versions_nonempty))).
Defined.

(* ================================================================== *)
(** * The lister on a page of links *)











Section ListerPage.
Variable requests_get : string -> outcome Response.
Variable html_parser : string -> outcome Bs4.node.

Local Abbreviation the_listed := (listed requests_get html_parser).

End ListerPage.



(* ================================================================== *)
(** * The lines of the CSV file *)

Lemma split_line (sep : ascii) (s rest : string) :
  existsb (Ascii.eqb sep) (list_ascii_of_string s) = false ->
  Py.split sep (s ++ String sep rest) = s :: Py.split sep rest.
Proof.
  induction s as [| c s IH]; simpl; intros H.
  - rewrite Ascii.eqb_refl. reflexivity.
  - apply orb_false_elim in H. destruct H as [Hc Hs].
    rewrite Ascii.eqb_sym, Hc, (IH Hs). reflexivity.
Qed.

Lemma has_line_feed_append (a b : string) :
  has_line_feed (a ++ b) = has_line_feed a || has_line_feed b.
Proof.
  unfold has_line_feed. induction a as [| c a IH]; simpl; [reflexivity |].
  rewrite IH. apply orb_assoc.
Qed.

Lemma concat_cons (x : string) (xs : list string) :
  String.concat "" (x :: xs) = x ++ String.concat "" xs.
Proof. destruct xs; simpl; [rewrite append_empty_r |]; reflexivity. Qed.

Lemma csv_row_line (av : string * string) (rest : string) :
  csv_row av ++ rest
  = (fst av ++ "," ++ snd av) ++ String (ascii_of_nat 10) rest.
Proof. unfold csv_row, LF. rewrite !append_assoc. reflexivity. Qed.

(** The rows of entries without line feeds are one line each. *)
Lemma split_rows (rows : list (string * string)) :
  Forall (fun av => has_line_feed (fst av) = false
                    /\ has_line_feed (snd av) = false) rows ->
  Py.split (ascii_of_nat 10) (String.concat "" (map csv_row rows))
  = (map (fun av => (fst av ++ "," ++ snd av)%string) rows ++ [""])%list.
Proof.
  induction 1 as [| av rows [Ha Hv] Hrows IH]; [reflexivity |].
  cbn [map]. rewrite concat_cons, csv_row_line, split_line, IH; [reflexivity |].
  fold (has_line_feed (fst av ++ "," ++ snd av)).
  rewrite !has_line_feed_append, Ha, Hv. reflexivity.
Qed.

Section CsvLines.
Variable requests_get : string -> outcome Response.
Variable html_parser : string -> outcome Bs4.node.

Local Abbreviation the_versions :=
  (version_map requests_get html_parser (listed requests_get html_parser)).
Local Abbreviation the_main := (main requests_get html_parser).

(** C8, as amended.  When the version map of a run is not empty and none of
    its artifact identifiers and versions holds a line feed, the third file
    the run writes, the CSV file, read line by line, is the header line
    [artifact,version], then one line [artifact,version] per entry of the
    version map and no other, the entries in strictly ascending order of
    their artifact identifier, and the file ends with the line feed of the
    last of them. *)
Theorem csv_file_lines clock :
  the_versions <> [] ->
  Forall (fun av => has_line_feed (fst av) = false
                    /\ has_line_feed (snd av) = false) the_versions ->
  exists name content rows,
    nth_error (files_of (run (the_main clock))) 2 = Some (name, content)
    /\ Py.split (ascii_of_nat 10) content
       = ("artifact,version"
          :: map (fun av => (fst av ++ "," ++ snd av)%string) rows ++ [""])%list
    /\ List.length rows = List.length the_versions
    /\ Permutation rows (Py.items the_versions)
    /\ StronglySorted (fun p q => Py.str_lt (fst p) (fst q)) rows.
Proof.
  intros Hne Hlf. rewrite main_files.
  destruct the_versions as [| p vs] eqn:Ev; [congruence |]. rewrite <- Ev in *.
  destruct (csv_of_rows the_versions) as (rows & Hcsv & Hlen & Hperm & Hsorted).
  eexists _, _, rows. unfold reports. cbn [nth_error].
  split; [reflexivity |]. split; [| split; [exact Hlen | split; [exact Hperm |]]].
  - rewrite Hcsv. unfold LF. rewrite append_assoc.
    change ("artifact,version" ++ String (ascii_of_nat 10) "" ++
            String.concat "" (map csv_row rows))
      with ("artifact,version" ++
            String (ascii_of_nat 10) (String.concat "" (map csv_row rows))).
    rewrite split_line by reflexivity. rewrite split_rows; [reflexivity |].
    apply Forall_forall. intros av Hav.
    apply (proj1 (Forall_forall _ _) Hlf).
    exact (Permutation_in _ Hperm Hav).
  - apply sorted_items_strict; [assumption |].
    eapply Permutation_NoDup; [apply Permutation_map, Permutation_sym, Hperm |].
    apply version_map_NoDup.
Qed.
End CsvLines.

Lemma csv_file_lines_sample :
  version_map (Sample.site_get Sample.pages) (Sample.site_parser Sample.pages)
    (listed (Sample.site_get Sample.pages) (Sample.site_parser Sample.pages))
  = [("core", "3.25.4")]
  /\ exists name content rows,
       nth_error
         (files_of (run (main (Sample.site_get Sample.pages)
                              (Sample.site_parser Sample.pages)
                              (Sample.clock_at 5)))) 2
       = Some (name, content)
       /\ Py.split (ascii_of_nat 10) content
          = ("artifact,version"
             :: map (fun av => (fst av ++ "," ++ snd av)%string) rows ++ [""])%list
       /\ List.length rows = 1
       /\ Permutation rows [("core", "3.25.4")]
       /\ StronglySorted (fun p q => Py.str_lt (fst p) (fst q)) rows.
Proof.
  assert (Hv : version_map (Sample.site_get Sample.pages)
                 (Sample.site_parser Sample.pages)
                 (listed (Sample.site_get Sample.pages)
                    (Sample.site_parser Sample.pages))
               = [("core", "3.25.4")]) by (vm_compute; reflexivity).
  assert (Hlf : Forall (fun av => has_line_feed (fst av) = false
                                  /\ has_line_feed (snd av) = false)
                  (version_map (Sample.site_get Sample.pages)
                     (Sample.site_parser Sample.pages)
                     (listed (Sample.site_get Sample.pages)
                        (Sample.site_parser Sample.pages)))).
  { rewrite Hv. repeat constructor. }
  exact (conj Hv
           (csv_file_lines (Sample.site_get Sample.pages)
              (Sample.site_parser Sample.pages) (Sample.clock_at 5)
              sample_versions_nonempty Hlf)).
Defined.

(** C8: a run whose version map has one entry and whose CSV file has two
    lines after the header: the text of the release button runs over two
    lines, [strip] keeps the line feed inside it, the pattern matches its
    start, and line 199 writes it as it is. *)
Lemma csv_two_lines_one_entry :
  version_map (Sample.site_get Sample.two_line_pages)
    (Sample.site_parser Sample.two_line_pages)
    (listed (Sample.site_get Sample.two_line_pages)
       (Sample.site_parser Sample.two_line_pages))
  = [("core", "3.25.4" ++ LF ++ "  latest")]
  /\ option_map (fun file => Py.split (ascii_of_nat 10) (snd file))
       (nth_error
          (files_of (run (main (Sample.site_get Sample.two_line_pages)
                               (Sample.site_parser Sample.two_line_pages)
                               (Sample.clock_at 5)))) 2)
     = Some ["artifact,version"; "core,3.25.4"; "  latest"; ""].
Proof. split; vm_compute; reflexivity. Qed.


(** The links around the tiles of the six-tile page match the pattern of
    line 44 as well: both strategies would read them, one does. *)
Example six_tiles_match_both :
  map (fun link => Bs4.getitem (Bs4.node_of link) "href")
      (Bs4.find_all_href "a" Re.search_artifact_link Sample.six_tiles)
  = map (fun name => Some (artifact_href name))
        ["javaparser-core"; "javaparser-parent"; "javaparser-symbol-solver-core";
         "javaparser-core"; "javaparser-core-serialization";
         "javaparser-core-generators"]
  /\ collect_artifacts Sample.six_tiles = artifacts_from_divs Sample.six_tiles.
Proof. split; vm_compute; reflexivity. Qed.

Example split_cases :
  Py.split "/" "a/b//c" = ["a"; "b"; ""; "c"]
  /\ Py.split "/" "" = [""]
  /\ Py.split "/" "abc" = ["abc"]
  /\ Py.split "/" "abc/" = ["abc"; ""].
Proof. repeat split; reflexivity. Qed.
